(** * diabetes_prediction_app: the prediction gateway of [app.py]

    A shallow embedding of [diabetes_prediction_app.py]: the JSON values the
    Flask handler receives, the Python built-ins the handler applies to them
    ([float], [in], subscripting, truthiness, [except] clauses), the pandas
    frame built for scoring, and the five functions of the module
    ([create_tf_serving_json], [validate_input_data], [score_model],
    [build_dataframe_from_request], [predict]).  The result normaliser of the
    specification is the [if]/[elif]/[else] block of [predict]. *)

From Stdlib Require Import ZArith List String Ascii Bool Floats Lia DecimalString.
Import ListNotations.
Open Scope string_scope.
Open Scope Z_scope.
Set Warnings "-register-all,-inexact-float".

(** ** Python values *)

(** Dictionaries keep insertion order and hold each key once; they are
    association lists read from the left and updated in place. *)
Definition dict (V : Type) : Type := list (string * V).

(** What [request.get_json()] and [response.json()] return: the Python image
    of a JSON document.  Strings are UTF-8 byte strings. *)
Inductive value : Type :=
| VNone
| VBool (b : bool)
| VInt (n : Z)
| VFloat (x : float)
| VStr (s : string)
| VList (l : list value)
| VDict (d : dict value).

Module Dict.

Fixpoint get {V} (k : string) (d : dict V) : option V :=
  match d with
  | [] => None
  | (k', v) :: d' => if String.eqb k k' then Some v else get k d'
  end.

Definition mem {V} (k : string) (d : dict V) : bool :=
  match get k d with Some _ => true | None => false end.

(** [d[k] = v]: an existing key keeps its position. *)
Fixpoint set {V} (k : string) (v : V) (d : dict V) : dict V :=
  match d with
  | [] => [(k, v)]
  | (k', v') :: d' =>
      if String.eqb k k' then (k, v) :: d' else (k', v') :: set k v d'
  end.

Definition keys {V} (d : dict V) : list string := map fst d.

Definition values {V} (d : dict V) : list V := map snd d.

End Dict.

(** [type(v).__name__] *)
Definition type_name (v : value) : string :=
  match v with
  | VNone => "NoneType"
  | VBool _ => "bool"
  | VInt _ => "int"
  | VFloat _ => "float"
  | VStr _ => "str"
  | VList _ => "list"
  | VDict _ => "dict"
  end.

(** Truthiness, as tested by [if not data]. *)
Definition truthy (v : value) : bool :=
  match v with
  | VNone => false
  | VBool b => b
  | VInt n => negb (n =? 0)
  | VFloat x => negb (PrimFloat.eqb x 0%float)
  | VStr s => negb (String.eqb s "")
  | VList l => match l with [] => false | _ :: _ => true end
  | VDict d => match d with [] => false | _ :: _ => true end
  end.

(** ** Exceptions *)

(** The exception classes the module names or can meet.  The [requests_]
    classes are those of [requests.exceptions]; [requests_ConnectTimeout]
    inherits from both [ConnectionError] and [Timeout]. *)
Inductive exn_class : Type :=
| Exception
| ValueError
| TypeError
| OverflowError
| IndexError
| KeyError
| AttributeError
| requests_RequestException
| requests_Timeout
| requests_ConnectionError
| requests_ConnectTimeout.

Definition exn_class_eqb (c d : exn_class) : bool :=
  match c, d with
  | Exception, Exception | ValueError, ValueError | TypeError, TypeError
  | OverflowError, OverflowError | IndexError, IndexError
  | KeyError, KeyError | AttributeError, AttributeError
  | requests_RequestException, requests_RequestException
  | requests_Timeout, requests_Timeout
  | requests_ConnectionError, requests_ConnectionError
  | requests_ConnectTimeout, requests_ConnectTimeout => true
  | _, _ => false
  end.

(** [issubclass c d] *)
Definition issubclass (c d : exn_class) : bool :=
  match d with
  | Exception => true
  | requests_RequestException =>
      match c with
      | requests_RequestException | requests_Timeout
      | requests_ConnectionError | requests_ConnectTimeout => true
      | _ => false
      end
  | requests_Timeout =>
      match c with
      | requests_Timeout | requests_ConnectTimeout => true
      | _ => false
      end
  | requests_ConnectionError =>
      match c with
      | requests_ConnectionError | requests_ConnectTimeout => true
      | _ => false
      end
  | _ => exn_class_eqb c d
  end.

(** A raised exception: its class and [str(e)]. *)
Record exn : Type := Exn { exn_class_of : exn_class; str : string }.

Definition isinstance (e : exn) (c : exn_class) : bool :=
  issubclass (exn_class_of e) c.

(** A computation that returns or raises. *)
Inductive result (A : Type) : Type :=
| Ok (a : A)
| Raise (e : exn).
Arguments Ok {A} a.
Arguments Raise {A} e.

Definition bind {A B} (m : result A) (k : A -> result B) : result B :=
  match m with
  | Ok a => k a
  | Raise e => Raise e
  end.

Notation "x <- m ;; k" := (bind m (fun x => k))
  (at level 61, m at next level, right associativity).
Notation "' p <- m ;; k" := (bind m (fun x => let 'p := x in k))
  (at level 61, p pattern, m at next level, right associativity).

(** ** Text helpers *)

(** [str(n)] for an [int], as an f-string renders it. *)
Definition str_of_int (n : Z) : string := NilZero.string_of_int (Z.to_int n).

(** [sub in s] on two [str]. *)
Fixpoint str_contains (sub s : string) : bool :=
  prefix sub s ||
  match s with
  | EmptyString => false
  | String _ s' => str_contains sub s'
  end.

(** The number of bytes of the UTF-8 sequence that starts with byte [c]. *)
Definition utf8_width (c : ascii) : nat :=
  let b := N_of_ascii c in
  if (b <? 192)%N then 1%nat
  else if (b <? 224)%N then 2%nat
  else if (b <? 240)%N then 3%nat
  else 4%nat.

(** [s[0]] on a non-empty [str]: its first code point. *)
Definition first_char (c : ascii) (rest : string) : string :=
  substring 0 (utf8_width c) (String c rest).

(** ** Built-ins of the interpreter *)

Section Interpreter.

(** [float(s)] on a [str] is CPython's numeral reader (surrounding white
    space, sign, digits with underscores, exponent, [inf] and [nan], correct
    rounding).  It is a parameter: [Some x] when [float(s)] returns [x],
    [None] when it raises [ValueError]. *)
Variable parse_float : string -> option float.

(** [repr(s)] on a [str], which the interpreter quotes in its messages. *)
Variable repr : string -> string.

(** [float(n)] on an [int]: the nearest binary64, ties to even;
    [OverflowError] when that is beyond the largest finite one. *)
Definition float_of_int (n : Z) : result float :=
  match binary_normalize prec emax n 0 false with
  | S754_infinity _ =>
      Raise (Exn OverflowError "int too large to convert to float")
  | sf => Ok (SF2Prim sf)
  end.

(** [float(v)].  [bool] is a subclass of [int]. *)
Definition py_float (v : value) : result float :=
  match v with
  | VFloat x => Ok x
  | VInt n => float_of_int n
  | VBool b => Ok (if b then 1%float else 0%float)
  | VStr s =>
      match parse_float s with
      | Some x => Ok x
      | None =>
          Raise (Exn ValueError
                   ("could not convert string to float: " ++ repr s))
      end
  | VNone | VList _ | VDict _ =>
      Raise (Exn TypeError
               ("float() argument must be a string or a real number, not '"
                  ++ type_name v ++ "'"))
  end.

(** [key in data] for a [str] key: key membership on a [dict], element
    equality on a [list], substring on a [str]; the other values are not
    containers. *)
Definition py_in (key : string) (data : value) : result bool :=
  match data with
  | VDict d => Ok (Dict.mem key d)
  | VList l =>
      Ok (existsb (fun v => match v with
                            | VStr s => String.eqb s key
                            | _ => false
                            end) l)
  | VStr s => Ok (str_contains key s)
  | _ =>
      Raise (Exn TypeError
               ("argument of type '" ++ type_name data ++ "' is not iterable"))
  end.

(** [data[key]] for a [str] key. *)
Definition py_getitem (data : value) (key : string) : result value :=
  match data with
  | VDict d =>
      match Dict.get key d with
      | Some v => Ok v
      | None => Raise (Exn KeyError (repr key))
      end
  | VList _ =>
      Raise (Exn TypeError "list indices must be integers or slices, not str")
  | VStr _ =>
      Raise (Exn TypeError "string indices must be integers, not 'str'")
  | _ =>
      Raise (Exn TypeError
               ("'" ++ type_name data ++ "' object is not subscriptable"))
  end.

(** [v[0]].  The keys of a JSON object are strings, so [0] is never one. *)
Definition py_first (v : value) : result value :=
  match v with
  | VList (x :: _) => Ok x
  | VList [] => Raise (Exn IndexError "list index out of range")
  | VStr (String c rest) => Ok (VStr (first_char c rest))
  | VStr EmptyString => Raise (Exn IndexError "string index out of range")
  | VDict _ => Raise (Exn KeyError "0")
  | _ =>
      Raise (Exn TypeError
               ("'" ++ type_name v ++ "' object is not subscriptable"))
  end.

(** [data.get(key, default)]; only a [dict] has the method. *)
Definition py_get (data : value) (key : string) (default : value)
  : result value :=
  match data with
  | VDict d =>
      Ok (match Dict.get key d with Some v => v | None => default end)
  | _ =>
      Raise (Exn AttributeError
               ("'" ++ type_name data ++ "' object has no attribute 'get'"))
  end.

End Interpreter.

(** ** pandas *)

(** A frame whose cells are all floats: column labels, row labels, and the
    rows. *)
Record DataFrame : Type := {
  columns : list string;
  index : list Z;
  data : list (list float)
}.

(** The column labels of [pd.DataFrame(records)]: the keys of the records
    in order of first appearance. *)
Definition add_label (seen : list string) (k : string) : list string :=
  if existsb (String.eqb k) seen then seen else seen ++ [k].

Definition union_keys (records : list (dict float)) : list string :=
  fold_left (fun seen r => fold_left add_label (Dict.keys r) seen) records [].

(** [pd.DataFrame(records)] for a list of records: one row per record,
    labelled from 0; a key a record lacks is NaN in its row. *)
Definition pd_DataFrame (records : list (dict float)) : DataFrame :=
  let cols := union_keys records in
  {| columns := cols;
     index := map Z.of_nat (seq 0 (List.length records));
     data :=
       map (fun r =>
              map (fun c => match Dict.get c r with
                            | Some x => x
                            | None => nan
                            end) cols)
           records |}.

(** [df.to_dict(orient='split')] *)
Definition to_dict_split (df : DataFrame) : value :=
  VDict [("index", VList (map VInt (index df)));
         ("columns", VList (map VStr (columns df)));
         ("data", VList (map (fun row => VList (map VFloat row)) (data df)))].

(** ** The HTTP client *)

(** The arguments of [requests.post]. *)
Record request : Type := {
  req_url : string;
  req_headers : dict string;
  req_data : string;
  req_timeout : Z
}.

(** What the handler reads of a [requests.Response]; [resp_json] is the
    outcome of calling [response.json()]. *)
Record response : Type := {
  status_code : Z;
  text : string;
  resp_json : result value
}.

(** ** Configuration *)

(** The attributes of [config.Config] the module reads.  [config.py] is not
    part of the sources; the attributes are parameters of the model.
    [REQUEST_TIMEOUT] is a whole number of seconds. *)
Record ConfigT : Type := {
  MODEL_FEATURES : list string;
  DEFAULT_VALUES : dict value;
  MLFLOW_ENDPOINT_URL : string;
  DATABRICKS_TOKEN : string;
  REQUEST_TIMEOUT : Z
}.

(** ** The application *)

Section App.

Variable parse_float : string -> option float.
Variable repr : string -> string.

(** [json.dumps(v, allow_nan=True)] *)
Variable json_dumps : value -> string.

(** The network: what [requests.post] does with a request. *)
Variable requests_post : request -> result response.

Variable Config : ConfigT.

Local Abbreviation float_ := (py_float parse_float repr).
Local Abbreviation getitem := (py_getitem repr).

Inductive tf_input : Type :=
| a_dict (d : dict value)
| a_frame (df : DataFrame).

(** [{name: [data[name]] for name in data.keys()}], one name at a time.
    The names are the keys of [data], so [data[name]] is always there. *)
Definition wrap_step (d : dict value) (acc : dict value) (name : string)
  : dict value :=
  match Dict.get name d with
  | Some v => Dict.set name (VList [v]) acc
  | None => acc
  end.

Definition wrap_columns (d : dict value) : dict value :=
  fold_left (wrap_step d) (Dict.keys d) [].

Definition create_tf_serving_json (data : tf_input) : value :=
  match data with
  | a_dict d => VDict [("inputs", VDict (wrap_columns d))]
  | a_frame df => VDict [("dataframe_split", to_dict_split df)]
  end.

(** [[f for f in required_features if f not in data]] *)
Fixpoint missing_from (data : value) (required_features : list string)
  : result (list string) :=
  match required_features with
  | [] => Ok []
  | f :: rest =>
      present <- py_in f data ;;
      others <- missing_from data rest ;;
      Ok (if present then others else f :: others)
  end.

(** The [for] loop of [validate_input_data]: [except (ValueError,
    TypeError)] returns the message; any other exception propagates. *)
Fixpoint check_values (data : value) (required_features : list string)
  : result (bool * string) :=
  match required_features with
  | [] => Ok (true, "")
  | feature :: rest =>
      match (v <- getitem data feature ;; float_ v) with
      | Ok _ => check_values data rest
      | Raise e =>
          if isinstance e ValueError || isinstance e TypeError
          then Ok (false, "Invalid value for feature '" ++ feature
                            ++ "': must be a number")
          else Raise e
      end
  end.

Definition validate_input_data (data : value) : result (bool * string) :=
  let required_features := MODEL_FEATURES Config in
  missing_features <- missing_from data required_features ;;
  match missing_features with
  | _ :: _ =>
      Ok (false, "Missing required features: "
                   ++ String.concat ", " missing_features)
  | [] => check_values data required_features
  end.

Definition score_model (dataset : DataFrame) : result value :=
  let url := MLFLOW_ENDPOINT_URL Config in
  let token := DATABRICKS_TOKEN Config in
  let timeout := REQUEST_TIMEOUT Config in
  let headers := [("Authorization", "Bearer " ++ token);
                  ("Content-Type", "application/json")] in
  let data_dict := VDict [("dataframe_split", to_dict_split dataset)] in
  let data_json := json_dumps data_dict in
  match requests_post {| req_url := url; req_headers := headers;
                         req_data := data_json; req_timeout := timeout |} with
  | Raise e =>
      if isinstance e requests_Timeout then
        Raise (Exn Exception
                 ("Request timed out after " ++ str_of_int timeout
                    ++ " seconds. The model endpoint may be slow or unavailable."))
      else if isinstance e requests_ConnectionError then
        Raise (Exn Exception
                 "Failed to connect to the model endpoint. Check your internet connection and endpoint URL.")
      else Raise e
  | Ok response =>
      if negb (status_code response =? 200) then
        Raise (Exn Exception
                 ("Request failed with status "
                    ++ str_of_int (status_code response)
                    ++ ". Response: " ++ text response))
      else resp_json response
  end.

(** The dict comprehension of [build_dataframe_from_request], filling
    [feature_dict] feature by feature. *)
Fixpoint feature_items (data : value) (features : list string)
  (feature_dict : dict float) : result (dict float) :=
  match features with
  | [] => Ok feature_dict
  | feature :: rest =>
      let default :=
        match Dict.get feature (DEFAULT_VALUES Config) with
        | Some d => d
        | None => VFloat 0%float
        end in
      v <- py_get data feature default ;;
      x <- float_ v ;;
      feature_items data rest (Dict.set feature x feature_dict)
  end.

Definition build_dataframe_from_request (data : value) : result DataFrame :=
  feature_dict <- feature_items data (MODEL_FEATURES Config) [] ;;
  Ok (pd_DataFrame [feature_dict]).

(** The extraction block of [predict] (the Result Normalizer). *)
Definition normalize (response : value) : result value :=
  match response with
  | VDict d =>
      if Dict.mem "predictions" d then
        predictions <- getitem response "predictions" ;;
        py_first predictions
      else if Dict.mem "data" d then
        data <- getitem response "data" ;;
        py_first data
      else Ok response
  | _ => Ok response
  end.

(** [jsonify(...)] with its status; a bare [jsonify] answers 200. *)
Definition jsonify (body : dict value) : value := VDict body.

(** The [try] block of [predict]; [get_json] is the outcome of
    [request.get_json()]. *)
Definition predict_try (get_json : result value) : result (value * Z) :=
  data <- get_json ;;
  if negb (truthy data) then
    Ok (jsonify [("success", VBool false);
                 ("error", VStr "No data provided in request body")], 400)
  else
    '(is_valid, error_message) <- validate_input_data data ;;
    if negb is_valid then
      Ok (jsonify [("success", VBool false);
                   ("error", VStr error_message)], 400)
    else
      df <- build_dataframe_from_request data ;;
      result <- score_model df ;;
      prediction_value <- normalize result ;;
      Ok (jsonify [("success", VBool true);
                   ("prediction", prediction_value)], 200).

Definition predict (get_json : result value) : value * Z :=
  match predict_try get_json with
  | Ok answer => answer
  | Raise e =>
      if isinstance e requests_RequestException then
        (jsonify [("success", VBool false);
                  ("error",
                   VStr ("Network error while calling model endpoint: "
                           ++ str e))], 500)
      else
        (jsonify [("success", VBool false);
                  ("error", VStr ("An error occurred: " ++ str e))], 400)
  end.

End App.

(** ** Vocabulary of the properties *)

(** The features of a list that a record lacks, in the order of the list. *)
Definition absent_from (r : dict value) (features : list string)
  : list string :=
  filter (fun f => negb (Dict.mem f r)) features.

(** The value the builder coerces for a feature: the record's entry if
    present, else the configured default if present, else [0.0]. *)
Definition chosen (cfg : ConfigT) (r : dict value) (f : string) : value :=
  match Dict.get f r with
  | Some v => v
  | None =>
      match Dict.get f (DEFAULT_VALUES cfg) with
      | Some d => d
      | None => VFloat 0%float
      end
  end.

(** The value under the first key the normaliser matches, if any. *)
Definition extraction_target (response : value) : option value :=
  match response with
  | VDict d =>
      match Dict.get "predictions" d with
      | Some p => Some p
      | None => Dict.get "data" d
      end
  | _ => None
  end.

(** The values [v] for which [v[0]] is defined. *)
Definition has_first (v : value) : bool :=
  match v with
  | VList (_ :: _) => true
  | VStr (String _ _) => true
  | _ => false
  end.

(** What the handler answers when the request never gets a usable body. *)
Definition no_data_answer : value * Z :=
  (jsonify [("success", VBool false);
            ("error", VStr "No data provided in request body")], 400).

(** ** An instance of the interpreter's parameters, for concrete runs *)

Module Demo.

Definition digit (c : ascii) : option Z :=
  let n := Z.of_N (N_of_ascii c) in
  if (48 <=? n) && (n <=? 57) then Some (n - 48) else None.

Fixpoint digits (s : string) (acc : Z) : option Z :=
  match s with
  | EmptyString => Some acc
  | String c s' =>
      match digit c with
      | Some d => digits s' (10 * acc + d)
      | None => None
      end
  end.

(** Reads a non-empty string of ASCII digits as [float] does, and rejects
    every other string. *)
Definition parse_float (s : string) : option float :=
  match s with
  | EmptyString => None
  | _ =>
      match digits s 0 with
      | Some n => Some (SF2Prim (binary_normalize prec emax n 0 false))
      | None => None
      end
  end.

(** [repr] of a string of printable ASCII without quotes or backslashes. *)
Definition repr (s : string) : string := "'" ++ s ++ "'".

(** A serializer that writes nothing; the network below never reads the
    body it is sent. *)
Definition json_dumps (v : value) : string := "".

(** A configuration with the given schema. *)
Definition config (features : list string) (defaults : dict value)
  : ConfigT :=
  {| MODEL_FEATURES := features;
     DEFAULT_VALUES := defaults;
     MLFLOW_ENDPOINT_URL := "https://model.example/invocations";
     DATABRICKS_TOKEN := "token";
     REQUEST_TIMEOUT := 30 |}.

(** A network on which no connection can be established. *)
Definition unreachable (rq : request) : result response :=
  Raise (Exn requests_ConnectionError "Connection refused").

End Demo.

(** The schema and defaults of the scenario of the specification. *)
Definition scenario : ConfigT :=
  Demo.config ["age"; "income"] [("income", VFloat 0%float)].

(** ** Vocabulary of the further properties *)

(** The [except] clauses of [predict], as a function of the exception. *)
Definition except_answer (e : exn) : value * Z :=
  if isinstance e requests_RequestException then
    (jsonify [("success", VBool false);
              ("error",
               VStr ("Network error while calling model endpoint: "
                       ++ str e))], 500)
  else
    (jsonify [("success", VBool false);
              ("error", VStr ("An error occurred: " ++ str e))], 400).

(** The one request [score_model] hands to [requests.post] for a frame. *)
Definition sent_request (json_dumps : value -> string) (cfg : ConfigT)
  (dataset : DataFrame) : request :=
  {| req_url := MLFLOW_ENDPOINT_URL cfg;
     req_headers := [("Authorization", "Bearer " ++ DATABRICKS_TOKEN cfg);
                     ("Content-Type", "application/json")];
     req_data :=
       json_dumps (VDict [("dataframe_split", to_dict_split dataset)]);
     req_timeout := REQUEST_TIMEOUT cfg |}.

(** The three envelopes the handler can answer with. *)
Definition success_answer (prediction : value) : value * Z :=
  (jsonify [("success", VBool true); ("prediction", prediction)], 200).

Definition error_answer (message : string) (status : Z) : value * Z :=
  (jsonify [("success", VBool false); ("error", VStr message)], status).

(** The JSON values that are neither objects, arrays nor strings. *)
Definition is_scalar (v : value) : bool :=
  match v with
  | VNone | VBool _ | VInt _ | VFloat _ => true
  | _ => false
  end.

(** The configuration with other defaults. *)
Definition with_defaults (cfg : ConfigT) (defaults : dict value) : ConfigT :=
  {| MODEL_FEATURES := MODEL_FEATURES cfg;
     DEFAULT_VALUES := defaults;
     MLFLOW_ENDPOINT_URL := MLFLOW_ENDPOINT_URL cfg;
     DATABRICKS_TOKEN := DATABRICKS_TOKEN cfg;
     REQUEST_TIMEOUT := REQUEST_TIMEOUT cfg |}.

Module Net.

(** A network that never answers in time; the connect timeout is both a
    [ConnectionError] and a [Timeout]. *)
Definition stalled (rq : request) : result response :=
  Raise (Exn requests_ConnectTimeout "Connection timed out").

(** An endpoint that answers every request with the given response. *)
Definition answering (resp : response) (rq : request) : result response :=
  Ok resp.

Definition unavailable : response :=
  {| status_code := 503;
     text := "Model unavailable";
     resp_json :=
       Raise (Exn requests_RequestException "Expecting value") |}.

Definition scored : response :=
  {| status_code := 200;
     text := "predictions: [0.87]";
     resp_json := Ok (VDict [("predictions", VList [VFloat 0.87])]) |}.

Definition garbled : response :=
  {| status_code := 200;
     text := "<html>";
     resp_json :=
       Raise (Exn requests_RequestException "Expecting value") |}.

End Net.

(** A body that the scenario accepts, and the frame built from it. *)
Definition sample_body : value :=
  VDict [("age", VStr "34"); ("income", VInt 3)].

Definition sample_frame : DataFrame :=
  {| columns := ["age"; "income"];
     index := [0];
     data := [[34%float; 3%float]] |}.

(** ** The handler with its calls to the endpoint made explicit *)

(** A computation that may call the endpoint: it is given the requests
    posted so far and hands back those, followed by its own. *)
Definition io (A : Type) : Type := list request -> result A * list request.

(** A step that posts nothing. *)
Definition io_ret {A} (m : result A) : io A := fun posted => (m, posted).

Definition io_bind {A B} (m : io A) (k : A -> io B) : io B :=
  fun posted =>
    match m posted with
    | (Ok a, posted') => k a posted'
    | (Raise e, posted') => (Raise e, posted')
    end.

Section Calls.

Variable parse_float : string -> option float.
Variable repr : string -> string.
Variable json_dumps : value -> string.
Variable requests_post : request -> result response.
Variable Config : ConfigT.

(** [requests.post(...)]: the request goes out, whatever comes back. *)
Definition post (rq : request) : io response :=
  fun posted => (requests_post rq, (posted ++ [rq])%list).

(** [score_model] statement by statement, over [post]. *)
Definition score_model_io (dataset : DataFrame) : io value :=
  let url := MLFLOW_ENDPOINT_URL Config in
  let token := DATABRICKS_TOKEN Config in
  let timeout := REQUEST_TIMEOUT Config in
  let headers := [("Authorization", "Bearer " ++ token);
                  ("Content-Type", "application/json")] in
  let data_dict := VDict [("dataframe_split", to_dict_split dataset)] in
  let data_json := json_dumps data_dict in
  fun posted =>
    match post {| req_url := url; req_headers := headers;
                  req_data := data_json; req_timeout := timeout |} posted with
    | (Raise e, posted') =>
        (if isinstance e requests_Timeout then
           Raise (Exn Exception
                    ("Request timed out after " ++ str_of_int timeout
                       ++ " seconds. The model endpoint may be slow or unavailable."))
         else if isinstance e requests_ConnectionError then
           Raise (Exn Exception
                    "Failed to connect to the model endpoint. Check your internet connection and endpoint URL.")
         else Raise e,
         posted')
    | (Ok response, posted') =>
        (if negb (status_code response =? 200) then
           Raise (Exn Exception
                    ("Request failed with status "
                       ++ str_of_int (status_code response)
                       ++ ". Response: " ++ text response))
         else resp_json response,
         posted')
    end.

(** The [try] block of [predict]; only [score_model] posts. *)
Definition predict_try_io (get_json : result value) : io (value * Z) :=
  io_bind (io_ret get_json) (fun data =>
  if negb (truthy data) then
    io_ret (Ok (jsonify [("success", VBool false);
                         ("error", VStr "No data provided in request body")],
                400))
  else
    io_bind (io_ret (validate_input_data parse_float repr Config data))
      (fun verdict =>
    let '(is_valid, error_message) := verdict in
    if negb is_valid then
      io_ret (Ok (jsonify [("success", VBool false);
                           ("error", VStr error_message)], 400))
    else
      io_bind (io_ret (build_dataframe_from_request parse_float repr Config
                         data)) (fun df =>
      io_bind (score_model_io df) (fun result =>
      io_bind (io_ret (normalize repr result)) (fun prediction_value =>
      io_ret (Ok (jsonify [("success", VBool true);
                           ("prediction", prediction_value)], 200))))))).

(** [predict] for one request: its answer and the requests it posted. *)
Definition predict_io (get_json : result value)
  : (value * Z) * list request :=
  match predict_try_io get_json [] with
  | (Ok answer, posted) => (answer, posted)
  | (Raise e, posted) =>
      (if isinstance e requests_RequestException then
         (jsonify [("success", VBool false);
                   ("error",
                    VStr ("Network error while calling model endpoint: "
                            ++ str e))], 500)
       else
         (jsonify [("success", VBool false);
                   ("error", VStr ("An error occurred: " ++ str e))], 400),
       posted)
  end.

End Calls.

(** ** Facts about dictionaries *)

(** Case analysis on the condition of the first [if] of the goal. *)
Ltac case_if :=
  match goal with
  | |- context [if ?c then _ else _] => destruct c eqn:?
  end.


Lemma dict_mem_false {V} (k : string) (d : dict V) :
  Dict.mem k d = false <-> Dict.get k d = None.
Proof.
  unfold Dict.mem. destruct (Dict.get k d); split; congruence.
Qed.


Lemma dict_set_fresh {V} (k : string) (v : V) (d : dict V) :
  ~ In k (Dict.keys d) -> Dict.set k v d = (d ++ [(k, v)])%list.
Proof.
  induction d as [|[k' v'] d IH]; simpl; intros Hk.
  - reflexivity.
  - destruct (String.eqb_spec k k') as [->|Hne].
    + exfalso. apply Hk. now left.
    + rewrite IH; [reflexivity | intros E; apply Hk; now right].
Qed.

Lemma dict_get_set {V} (k k' : string) (v : V) (d : dict V) :
  Dict.get k' (Dict.set k v d) =
  if String.eqb k' k then Some v else Dict.get k' d.
Proof.
  induction d as [|[k0 v0] d IH]; simpl.
  - reflexivity.
  - destruct (String.eqb_spec k k0) as [->|Hne]; simpl.
    + destruct (String.eqb k' k0); reflexivity.
    + rewrite IH. destruct (String.eqb_spec k' k0) as [->|Hne'].
      * destruct (String.eqb_spec k0 k); [congruence | reflexivity].
      * reflexivity.
Qed.

Lemma dict_keys_combine {V} (ks : list string) (vs : list V) :
  List.length vs = List.length ks -> Dict.keys (combine ks vs) = ks.
Proof.
  revert vs. induction ks as [|k ks IH]; intros [|v vs]; simpl;
    try discriminate; try reflexivity.
  intros H. f_equal. apply IH. now injection H.
Qed.


(** ** The validator *)

Section Validator.

Variable parse_float : string -> option float.
Variable repr : string -> string.
Variable Config : ConfigT.

Local Abbreviation float_ := (py_float parse_float repr).
Local Abbreviation validate := (validate_input_data parse_float repr Config).
Local Abbreviation check := (check_values parse_float repr).

Lemma absent_from_spec (r : dict value) (features : list string) (f : string) :
  In f (absent_from r features) <-> In f features /\ Dict.get f r = None.
Proof.
  unfold absent_from. rewrite filter_In, negb_true_iff, dict_mem_false.
  reflexivity.
Qed.

Lemma missing_from_record (r : dict value) (features : list string) :
  missing_from (VDict r) features = Ok (absent_from r features).
Proof.
  induction features as [|f rest IH]; simpl.
  - reflexivity.
  - rewrite IH. simpl. destruct (Dict.mem f r); reflexivity.
Qed.

Lemma absent_from_nil (r : dict value) (features : list string) :
  (forall f, In f features -> Dict.get f r <> None) ->
  absent_from r features = [].
Proof.
  intros Hall. destruct (absent_from r features) as [|f l] eqn:E.
  - reflexivity.
  - assert (Hin : In f (absent_from r features)) by (rewrite E; now left).
    apply absent_from_spec in Hin. destruct Hin as [Hf Hnone].
    now apply Hall in Hf.
Qed.

Lemma check_values_accepts (r : dict value) (features : list string) :
  (forall f, In f features ->
     exists v x, Dict.get f r = Some v /\ float_ v = Ok x) ->
  check (VDict r) features = Ok (true, "").
Proof.
  induction features as [|f rest IH]; simpl; intros Hall.
  - reflexivity.
  - destruct (Hall f (or_introl eq_refl)) as (v & x & Hv & Hx).
    rewrite Hv. simpl. rewrite Hx. apply IH.
    intros g Hg. apply Hall. now right.
Qed.

(** The loop stops at the first feature whose coercion raises; a
    [ValueError] or [TypeError] there becomes the message naming it. *)
Lemma check_values_first_invalid (r : dict value)
  (before after : list string) (f : string) (v : value) (e : exn) :
  (forall g, In g before ->
     exists w x, Dict.get g r = Some w /\ float_ w = Ok x) ->
  Dict.get f r = Some v ->
  float_ v = Raise e ->
  check (VDict r) (before ++ f :: after) =
  if isinstance e ValueError || isinstance e TypeError
  then Ok (false, "Invalid value for feature '" ++ f
                    ++ "': must be a number")
  else Raise e.
Proof.
  intros Hbefore Hv He.
  induction before as [|g before IH]; simpl.
  - rewrite Hv. simpl. rewrite He. reflexivity.
  - destruct (Hbefore g (or_introl eq_refl)) as (w & x & Hw & Hx).
    rewrite Hw. simpl. rewrite Hx. apply IH.
    intros h Hh. apply Hbefore. now right.
Qed.

(** [float] raises nothing but [ValueError], [TypeError] and
    [OverflowError], the last one on an [int] only. *)
Lemma py_float_raises (v : value) (e : exn) :
  float_ v = Raise e ->
  exn_class_of e = ValueError \/ exn_class_of e = TypeError \/
  (exn_class_of e = OverflowError /\ exists n, v = VInt n).
Proof.
  destruct v as [| b | n | x | s | l | d]; simpl; intros H;
    try discriminate; try (injection H as <-; simpl; tauto).
  - right. right. unfold float_of_int in H.
    destruct (binary_normalize prec emax n 0 false); try discriminate.
    injection H as <-. simpl. eauto.
  - destruct (parse_float s); [discriminate|].
    injection H as <-. simpl. tauto.
Qed.

(** On a record, nothing but the [OverflowError] of [float] gets out of
    the validator. *)
Lemma check_values_raises (r : dict value) (features : list string)
  (e : exn) :
  (forall f, In f features -> Dict.get f r <> None) ->
  check (VDict r) features = Raise e ->
  exn_class_of e = OverflowError.
Proof.
  induction features as [|f rest IH]; simpl; intros Hpresent.
  - discriminate.
  - destruct (Dict.get f r) as [v|] eqn:Hv;
      [|now destruct (Hpresent f (or_introl eq_refl))].
    simpl. destruct (float_ v) as [x|e0] eqn:Hx.
    + apply IH. intros g Hg. apply Hpresent. now right.
    + destruct (py_float_raises v e0 Hx) as [Hc|[Hc|[Hc _]]];
        unfold isinstance; rewrite Hc; simpl; try discriminate.
      intros H. injection H as <-. exact Hc.
Qed.

Lemma validate_raises_only_overflow (r : dict value) (e : exn) :
  validate (VDict r) = Raise e -> exn_class_of e = OverflowError.
Proof.
  unfold validate_input_data. rewrite missing_from_record. simpl bind.
  destruct (absent_from r (MODEL_FEATURES Config)) as [|m ms] eqn:Habs;
    [|discriminate].
  apply check_values_raises. intros f Hf Hnone.
  assert (Hin : In f (absent_from r (MODEL_FEATURES Config)))
    by (apply absent_from_spec; auto).
  rewrite Habs in Hin. destruct Hin.
Qed.

(** A feature the record lacks is reported, whatever the configuration
    says about it. *)
Lemma validate_lists_missing (r : dict value) (f : string) :
  In f (MODEL_FEATURES Config) ->
  Dict.get f r = None ->
  validate (VDict r) =
    Ok (false, "Missing required features: "
                 ++ String.concat ", " (absent_from r (MODEL_FEATURES Config)))
  /\ In f (absent_from r (MODEL_FEATURES Config)).
Proof.
  intros Hin Hnone.
  assert (Habs : In f (absent_from r (MODEL_FEATURES Config)))
    by (apply absent_from_spec; auto).
  split; [|exact Habs].
  unfold validate_input_data. rewrite missing_from_record. simpl.
  destruct (absent_from r (MODEL_FEATURES Config)); [destruct Habs|].
  reflexivity.
Qed.

(** With every feature present, the answer is decided at the first feature
    whose coercion raises: the message naming it for a [ValueError] or
    [TypeError], the exception itself otherwise. *)
Lemma validate_first_invalid (r : dict value) (before after : list string)
  (f : string) (v : value) (e : exn) :
  MODEL_FEATURES Config = (before ++ f :: after)%list ->
  (forall g, In g (MODEL_FEATURES Config) -> Dict.get g r <> None) ->
  (forall g, In g before ->
     exists w x, Dict.get g r = Some w /\ float_ w = Ok x) ->
  Dict.get f r = Some v ->
  float_ v = Raise e ->
  validate (VDict r) =
  if isinstance e ValueError || isinstance e TypeError
  then Ok (false, "Invalid value for feature '" ++ f
                    ++ "': must be a number")
  else Raise e.
Proof.
  intros Hsplit Hpresent Hbefore Hv He.
  unfold validate_input_data. rewrite missing_from_record. simpl bind.
  rewrite (absent_from_nil r _ Hpresent), Hsplit.
  now apply check_values_first_invalid with (v := v).
Qed.

(** C1: a record that holds every schema feature with a value [float]
    accepts passes validation; a record that lacks one or more features is
    rejected with the missing-features message, which lists exactly the
    schema features absent from the record, all of them, in schema order. *)
Theorem validate_complete_or_lists_all_missing (r : dict value) :
  ((forall f, In f (MODEL_FEATURES Config) ->
      exists v x, Dict.get f r = Some v /\ float_ v = Ok x) ->
   validate (VDict r) = Ok (true, ""))
  /\
  ((exists f, In f (MODEL_FEATURES Config) /\ Dict.get f r = None) ->
   validate (VDict r) =
     Ok (false, "Missing required features: "
                  ++ String.concat ", "
                       (absent_from r (MODEL_FEATURES Config)))
   /\ forall f, In f (absent_from r (MODEL_FEATURES Config)) <->
                In f (MODEL_FEATURES Config) /\ Dict.get f r = None).
Proof.
  split.
  - intros Hall. unfold validate_input_data.
    rewrite missing_from_record. simpl.
    rewrite absent_from_nil.
    + now apply check_values_accepts.
    + intros f Hf. destruct (Hall f Hf) as (v & _ & Hv & _). congruence.
  - intros (f & Hin & Hnone). split.
    + now apply (validate_lists_missing r f).
    + intros g. apply absent_from_spec.
Qed.

End Validator.

(** ** The record builder *)

Lemma Forall_exists_Forall2 {A B} (P : A -> B -> Prop) (l : list A) :
  Forall (fun a => exists b, P a b) l -> exists l', Forall2 P l l'.
Proof.
  induction 1 as [|a l [b Hb] _ [l' IH]].
  - exists []. constructor.
  - exists (b :: l'). now constructor.
Qed.

Lemma add_label_fresh (seen : list string) (k : string) :
  ~ In k seen -> add_label seen k = (seen ++ [k])%list.
Proof.
  intros Hk. unfold add_label.
  destruct (existsb (String.eqb k) seen) eqn:E; [|reflexivity].
  apply existsb_exists in E. destruct E as (k' & Hin & Heq).
  apply String.eqb_eq in Heq. subst. contradiction.
Qed.

Lemma fold_add_label_fresh (ks seen : list string) :
  NoDup ks -> (forall k, In k ks -> ~ In k seen) ->
  fold_left add_label ks seen = (seen ++ ks)%list.
Proof.
  revert seen. induction ks as [|k ks IH]; simpl; intros seen Hnd Hfresh.
  - now rewrite app_nil_r.
  - inversion Hnd as [|? ? Hk Hks]; subst.
    rewrite add_label_fresh by (apply Hfresh; now left).
    rewrite IH; [now rewrite <- app_assoc | assumption |].
    intros g Hg Hin. apply in_app_or in Hin. destruct Hin as [Hin|[->|[]]].
    + apply (Hfresh g); [now right | assumption].
    + contradiction.
Qed.

Lemma row_of_combine (ks : list string) (xs : list float) :
  NoDup ks -> List.length xs = List.length ks ->
  map (fun c => match Dict.get c (combine ks xs) with
                | Some x => x
                | None => nan
                end) ks = xs.
Proof.
  revert xs. induction ks as [|k ks IH]; intros [|x xs] Hnd Hlen;
    simpl in *; try discriminate; try reflexivity.
  inversion Hnd as [|? ? Hk Hks]; subst.
  rewrite String.eqb_refl. f_equal.
  etransitivity; [|apply (IH xs Hks); now injection Hlen].
  apply map_ext_in. intros c Hc.
  destruct (String.eqb_spec c k) as [->|Hne]; [contradiction | reflexivity].
Qed.

(** The frame of one record with distinct keys: its keys as columns, one
    row labelled 0 holding its values. *)
Lemma pd_DataFrame_single (ks : list string) (xs : list float) :
  NoDup ks -> List.length xs = List.length ks ->
  pd_DataFrame [combine ks xs] =
  {| columns := ks; index := [0]; data := [xs] |}.
Proof.
  intros Hnd Hlen. unfold pd_DataFrame, union_keys. simpl.
  rewrite (dict_keys_combine ks xs Hlen).
  rewrite (fold_add_label_fresh ks [] Hnd) by (intros k _ []).
  simpl. now rewrite row_of_combine.
Qed.

Section Builder.

Variable parse_float : string -> option float.
Variable repr : string -> string.
Variable Config : ConfigT.

Local Abbreviation float_ := (py_float parse_float repr).
Local Abbreviation getitem := (py_getitem repr).
Local Abbreviation validate := (validate_input_data parse_float repr Config).
Local Abbreviation check := (check_values parse_float repr).
Local Abbreviation items := (feature_items parse_float repr Config).
Local Abbreviation build :=
  (build_dataframe_from_request parse_float repr Config).

Lemma feature_items_fill (r : dict value) (features : list string)
  (xs : list float) (feature_dict : dict float) :
  NoDup features ->
  (forall f, In f features -> ~ In f (Dict.keys feature_dict)) ->
  Forall2 (fun f x => float_ (chosen Config r f) = Ok x) features xs ->
  items (VDict r) features feature_dict =
  Ok (feature_dict ++ combine features xs)%list.
Proof.
  intros Hnd Hfresh Hall. revert feature_dict Hnd Hfresh.
  induction Hall as [|f x features xs Hx _ IH]; intros acc Hnd Hfresh; simpl.
  - now rewrite app_nil_r.
  - inversion Hnd as [|? ? Hf Hfs]; subst.
    unfold chosen in Hx. rewrite Hx. simpl.
    rewrite dict_set_fresh by (apply Hfresh; now left).
    rewrite IH; [now rewrite <- app_assoc | assumption |].
    intros g Hg Hin. unfold Dict.keys in Hin. rewrite map_app in Hin.
    apply in_app_or in Hin. destruct Hin as [Hin|[<-|[]]].
    + apply (Hfresh g); [now right | exact Hin].
    + contradiction.
Qed.

Lemma check_values_ok_inv (data : value) (features : list string)
  (message : string) :
  check data features = Ok (true, message) ->
  forall f, In f features ->
    exists v x, getitem data f = Ok v /\ float_ v = Ok x.
Proof.
  induction features as [|g rest IH]; simpl.
  - intros _ f [].
  - destruct (getitem data g) as [v|e] eqn:Hv; simpl.
    + destruct (float_ v) as [x|e] eqn:Hx.
      * intros Hok f [<-|Hf]; [eauto | now apply IH].
      * case_if; intros Hok; discriminate.
    + case_if; intros Hok; discriminate.
Qed.

Lemma getitem_get (data : value) (f : string) (v default : value) :
  getitem data f = Ok v -> py_get data f default = Ok v.
Proof.
  destruct data; simpl; try discriminate.
  destruct (Dict.get f d); [auto | discriminate].
Qed.

Lemma feature_items_total (data : value) (features : list string) :
  (forall f, In f features ->
     exists v x, getitem data f = Ok v /\ float_ v = Ok x) ->
  forall feature_dict, exists filled,
    items data features feature_dict = Ok filled.
Proof.
  induction features as [|f rest IH]; simpl; intros Hall acc.
  - eauto.
  - destruct (Hall f (or_introl eq_refl)) as (v & x & Hv & Hx).
    rewrite (getitem_get data f v _ Hv). simpl. rewrite Hx. simpl.
    apply IH. intros g Hg. apply Hall. now right.
Qed.

Lemma validate_ok_inv (data : value) (message : string) :
  validate data = Ok (true, message) ->
  check data (MODEL_FEATURES Config) = Ok (true, message).
Proof.
  unfold validate_input_data.
  destruct (missing_from data (MODEL_FEATURES Config)) as [[|m ms]|e];
    simpl; [auto | discriminate | discriminate].
Qed.

(** The comprehension stops at the first feature whose chosen value
    [float] rejects, with the exception [float] raised. *)
Lemma feature_items_first_rejected (r : dict value)
  (before after : list string) (f : string) (e : exn)
  (feature_dict : dict float) :
  Forall (fun g => exists x, float_ (chosen Config r g) = Ok x) before ->
  float_ (chosen Config r f) = Raise e ->
  items (VDict r) (before ++ f :: after) feature_dict = Raise e.
Proof.
  intros Hbefore He. revert feature_dict.
  induction Hbefore as [|g before [x Hx] _ IH]; intros acc; simpl.
  - unfold chosen in He. now rewrite He.
  - unfold chosen in Hx. rewrite Hx. simpl. apply IH.
Qed.

Lemma feature_items_returns (r : dict value) (features : list string)
  (feature_dict : dict float) :
  Forall (fun f => exists x, float_ (chosen Config r f) = Ok x) features ->
  exists filled, items (VDict r) features feature_dict = Ok filled.
Proof.
  intros Hall. revert feature_dict.
  induction Hall as [|f features [x Hx] _ IH]; intros acc; simpl.
  - eauto.
  - unfold chosen in Hx. rewrite Hx. simpl. apply IH.
Qed.

Lemma feature_items_returns_inv (r : dict value) (features : list string)
  (feature_dict filled : dict float) :
  items (VDict r) features feature_dict = Ok filled ->
  Forall (fun f => exists x, float_ (chosen Config r f) = Ok x) features.
Proof.
  revert feature_dict.
  induction features as [|f rest IH]; intros acc; simpl.
  - constructor.
  - fold (chosen Config r f).
    destruct (float_ (chosen Config r f)) as [x|e] eqn:Hx; simpl;
      [|discriminate].
    intros H. constructor; [eauto | exact (IH _ H)].
Qed.

(** C4, amended: the builder returns a frame exactly when [float] accepts
    the value chosen for every schema feature (the record's entry if
    present, else the configured default, else [0.0]).  When it does and the
    schema features are distinct, the feature dictionary holds the schema
    features in schema order, each with the coercion of its chosen value, it
    is as long as the schema, and the frame has the schema as columns and
    one row of those floats.  When [float] rejects the chosen value of some
    schema feature, the builder raises the exception [float] raised on the
    first such feature in schema order. *)
Theorem build_follows_schema (r : dict value) :
  (NoDup (MODEL_FEATURES Config) ->
   Forall (fun f => exists x, float_ (chosen Config r f) = Ok x)
          (MODEL_FEATURES Config) ->
   exists xs,
     Forall2 (fun f x => float_ (chosen Config r f) = Ok x)
             (MODEL_FEATURES Config) xs
     /\ items (VDict r) (MODEL_FEATURES Config) [] =
          Ok (combine (MODEL_FEATURES Config) xs)
     /\ Dict.keys (combine (MODEL_FEATURES Config) xs) = MODEL_FEATURES Config
     /\ List.length (combine (MODEL_FEATURES Config) xs) =
          List.length (MODEL_FEATURES Config)
     /\ build (VDict r) =
          Ok {| columns := MODEL_FEATURES Config;
                index := [0];
                data := [xs] |})
  /\ ((exists df, build (VDict r) = Ok df) <->
      Forall (fun f => exists x, float_ (chosen Config r f) = Ok x)
             (MODEL_FEATURES Config))
  /\ (forall before f after e,
        MODEL_FEATURES Config = (before ++ f :: after)%list ->
        Forall (fun g => exists x, float_ (chosen Config r g) = Ok x)
               before ->
        float_ (chosen Config r f) = Raise e ->
        build (VDict r) = Raise e).
Proof.
  split; [|split].
  - intros Hnd Hall.
    destruct (Forall_exists_Forall2 _ _ Hall) as [xs Hxs]. exists xs.
    assert (Hlen : List.length xs = List.length (MODEL_FEATURES Config))
      by (symmetry; exact (Forall2_length Hxs)).
    assert (Hitems : items (VDict r) (MODEL_FEATURES Config) [] =
                     Ok (combine (MODEL_FEATURES Config) xs)).
    { rewrite (feature_items_fill r _ xs []); auto. }
    repeat split.
    + exact Hxs.
    + exact Hitems.
    + now apply dict_keys_combine.
    + rewrite length_combine, Hlen. apply Nat.min_id.
    + unfold build_dataframe_from_request. rewrite Hitems. simpl bind.
      now rewrite pd_DataFrame_single.
  - unfold build_dataframe_from_request. split.
    + intros [df Hdf].
      destruct (items (VDict r) (MODEL_FEATURES Config) []) as [filled|e]
        eqn:Hitems; [|discriminate].
      exact (feature_items_returns_inv r _ [] filled Hitems).
    + intros Hall.
      destruct (feature_items_returns r _ [] Hall) as [filled Hfilled].
      rewrite Hfilled. simpl. eauto.
  - intros before f after e Hsplit Hbefore He.
    unfold build_dataframe_from_request.
    now rewrite Hsplit, (feature_items_first_rejected r before after f e []).
Qed.

(** Data that validation accepts fills the feature dictionary. *)
Lemma validated_items (data : value) (message : string) :
  validate data = Ok (true, message) ->
  exists filled, items data (MODEL_FEATURES Config) [] = Ok filled.
Proof.
  intros Hvalid. apply validate_ok_inv in Hvalid.
  apply feature_items_total. exact (check_values_ok_inv _ _ _ Hvalid).
Qed.

(** C5: when validation accepts the request data, the builder returns a
    frame; no coercion it repeats can raise. *)
Theorem build_total_after_validate (data : value) (message : string) :
  validate data = Ok (true, message) ->
  exists df, build data = Ok df.
Proof.
  intros Hvalid.
  destruct (validated_items data message Hvalid) as [filled Hfilled].
  exists (pd_DataFrame [filled]).
  unfold build_dataframe_from_request. now rewrite Hfilled.
Qed.

End Builder.

(** ** The payload encoder *)

Lemma wrap_fold_get (d : dict value) (names : list string)
  (acc : dict value) (name : string) :
  Dict.get name (fold_left (wrap_step d) names acc) =
  if existsb (String.eqb name) names then
    match Dict.get name d with
    | Some v => Some (VList [v])
    | None => Dict.get name acc
    end
  else Dict.get name acc.
Proof.
  revert acc. induction names as [|k names IH]; intros acc; simpl.
  - reflexivity.
  - rewrite IH. unfold wrap_step.
    destruct (String.eqb_spec name k) as [->|Hne]; simpl.
    + destruct (Dict.get k d) as [v|].
      * rewrite dict_get_set, String.eqb_refl.
        now destruct (existsb (String.eqb k) names).
      * now destruct (existsb (String.eqb k) names).
    + destruct (Dict.get k d) as [v|]; [|reflexivity].
      rewrite dict_get_set.
      destruct (String.eqb_spec name k) as [E|_]; [contradiction|].
      reflexivity.
Qed.

Lemma dict_get_some_keys {V} (k : string) (v : V) (d : dict V) :
  Dict.get k d = Some v -> existsb (String.eqb k) (Dict.keys d) = true.
Proof.
  induction d as [|[k' v'] d IH]; simpl; [discriminate|].
  destruct (String.eqb k k'); simpl; auto.
Qed.

Lemma dict_get_in_nodup {V} (k : string) (v : V) (d : dict V) :
  NoDup (Dict.keys d) -> In (k, v) d -> Dict.get k d = Some v.
Proof.
  induction d as [|[k' v'] d IH]; simpl; intros Hnd Hin; [destruct Hin|].
  inversion Hnd as [|? ? Hk Hd]; subst.
  destruct Hin as [E|Hin].
  - injection E as -> ->. now rewrite String.eqb_refl.
  - destruct (String.eqb_spec k k') as [->|Hne]; [|auto].
    exfalso. apply Hk. change (In (fst (k', v)) (map fst d)).
    now apply in_map.
Qed.

Lemma wrap_fold_fresh (d : dict value) (l acc : dict value) :
  NoDup (Dict.keys l) ->
  (forall k v, In (k, v) l -> Dict.get k d = Some v) ->
  (forall k, In k (Dict.keys l) -> ~ In k (Dict.keys acc)) ->
  fold_left (wrap_step d) (Dict.keys l) acc =
  (acc ++ map (fun kv => (fst kv, VList [snd kv])) l)%list.
Proof.
  revert acc. induction l as [|[k v] l IH]; simpl; intros acc Hnd Hget Hfresh.
  - now rewrite app_nil_r.
  - inversion Hnd as [|? ? Hk Hl]; subst.
    unfold wrap_step at 2. rewrite (Hget k v) by (now left).
    rewrite dict_set_fresh by (apply Hfresh; now left).
    rewrite IH; [now rewrite <- app_assoc | assumption | |].
    + intros k' v' Hin. apply Hget. now right.
    + intros g Hg Hin. unfold Dict.keys in Hin. rewrite map_app in Hin.
      apply in_app_or in Hin. destruct Hin as [Hin|[<-|[]]].
      * apply (Hfresh g); [now right | exact Hin].
      * contradiction.
Qed.

(** C6: in record style a record becomes [{"inputs": {...}}] in which every
    feature of the record is bound to the one-element list of its value (and
    to nothing else), in the record's order; in tabular style the frame of a
    validated record of n features becomes [{"dataframe_split": {...}}] with
    the n feature names as columns in schema order, index [[0]] and one row
    of the n values in the same order. *)
Theorem encode_shapes (d : dict value) (features : list string)
  (xs : list float) :
  (create_tf_serving_json (a_dict d) = VDict [("inputs", VDict (wrap_columns d))]
   /\ (forall name,
         Dict.get name (wrap_columns d) =
         option_map (fun v => VList [v]) (Dict.get name d))
   /\ (NoDup (Dict.keys d) ->
       wrap_columns d = map (fun kv => (fst kv, VList [snd kv])) d))
  /\
  (NoDup features -> List.length xs = List.length features ->
   create_tf_serving_json (a_frame (pd_DataFrame [combine features xs])) =
     VDict [("dataframe_split",
             VDict [("index", VList [VInt 0]);
                    ("columns", VList (map VStr features));
                    ("data", VList [VList (map VFloat xs)])])]
   /\ List.length (map VStr features) = List.length features
   /\ List.length (map VFloat xs) = List.length features).
Proof.
  split; [split; [reflexivity | split] |].
  - intros name. unfold wrap_columns. rewrite wrap_fold_get. simpl.
    destruct (Dict.get name d) as [v|] eqn:Hv; simpl.
    + now rewrite (dict_get_some_keys name v d Hv).
    + now destruct (existsb (String.eqb name) (Dict.keys d)).
  - intros Hnd. unfold wrap_columns.
    rewrite (wrap_fold_fresh d d []); auto.
    intros k v. now apply dict_get_in_nodup.
  - intros Hnd Hlen. rewrite pd_DataFrame_single by assumption.
    repeat split.
    + apply length_map.
    + now rewrite length_map.
Qed.

(** ** The result normaliser and the handler *)

Section Gateway.

Variable parse_float : string -> option float.
Variable repr : string -> string.
Variable json_dumps : value -> string.
Variable requests_post : request -> result response.
Variable Config : ConfigT.

Local Abbreviation validate := (validate_input_data parse_float repr Config).
Local Abbreviation handler :=
  (predict parse_float repr json_dumps requests_post Config).

Lemma normalize_target (response : value) :
  normalize repr response =
  match extraction_target response with
  | Some target => py_first target
  | None => Ok response
  end.
Proof.
  destruct response as [| b | n | x | s | l | d]; try reflexivity.
  unfold normalize, extraction_target, Dict.mem. simpl py_getitem.
  destruct (Dict.get "predictions" d) as [p|]; [reflexivity|].
  destruct (Dict.get "data" d) as [v|]; reflexivity.
Qed.

Lemma py_first_returns (v : value) :
  (exists x, py_first v = Ok x) <-> has_first v = true.
Proof.
  destruct v as [| b | n | x | [|c s] | [|y l] | d]; simpl;
    split; intros H; try discriminate; try reflexivity; eauto;
    destruct H as [x' H]; discriminate.
Qed.

(** C7: the first matching rule decides.  A mapping with key
    ["predictions"] gives the first element of that entry, whether or not
    ["data"] is there too; failing that, a mapping with key ["data"] gives
    the first element of that entry; anything else comes back unchanged. *)
Theorem normalize_precedence :
  (forall d p, Dict.get "predictions" d = Some p ->
     normalize repr (VDict d) = py_first p)
  /\ (forall d v, Dict.get "predictions" d = None ->
        Dict.get "data" d = Some v ->
        normalize repr (VDict d) = py_first v)
  /\ (forall response, extraction_target response = None ->
        normalize repr response = Ok response)
  /\ normalize repr (VDict [("predictions", VList [VFloat 0.87])]) =
       Ok (VFloat 0.87)
  /\ normalize repr (VDict [("data", VList [VList [VFloat 0.2; VFloat 0.8]])]) =
       Ok (VList [VFloat 0.2; VFloat 0.8])
  /\ normalize repr (VDict [("foo", VInt 1)]) = Ok (VDict [("foo", VInt 1)]).
Proof.
  repeat split; try reflexivity.
  - intros d p Hp. rewrite normalize_target. simpl. now rewrite Hp.
  - intros d v Hp Hv. rewrite normalize_target. simpl. now rewrite Hp, Hv.
  - intros response Hnone. rewrite normalize_target. now rewrite Hnone.
Qed.

(** C8, amended: the normaliser returns exactly when no key matches (the
    response then comes back unchanged) or the entry under the first
    matching key has a first element; on a non-empty list it returns that
    element, and on an empty list the extraction raises [IndexError]. *)
Theorem normalize_returns_iff (response : value) :
  ((exists v, normalize repr response = Ok v) <->
   match extraction_target response with
   | Some target => has_first target = true
   | None => True
   end)
  /\ (extraction_target response = None ->
      normalize repr response = Ok response)
  /\ (forall x l, extraction_target response = Some (VList (x :: l)) ->
      normalize repr response = Ok x)
  /\ (extraction_target response = Some (VList []) ->
      normalize repr response =
      Raise (Exn IndexError "list index out of range")).
Proof.
  rewrite normalize_target.
  destruct (extraction_target response) as [target|].
  - split; [apply py_first_returns|].
    split; [discriminate|].
    split; [intros x l H | intros H]; injection H as ->; reflexivity.
  - split; [split; eauto|].
    split; [reflexivity|]. split; [intros x l H | intros H]; discriminate.
Qed.

Lemma handler_falsy (data : value) :
  truthy data = false -> handler (Ok data) = no_data_answer.
Proof.
  intros Hfalsy. unfold predict, predict_try, bind. now rewrite Hfalsy.
Qed.

Lemma handler_rejected (data : value) (message : string) :
  truthy data = true ->
  validate data = Ok (false, message) ->
  handler (Ok data) =
  (jsonify [("success", VBool false); ("error", VStr message)], 400).
Proof.
  intros Htruthy Hinvalid. unfold predict, predict_try, bind.
  now rewrite Htruthy, Hinvalid.
Qed.

(** A [RequestException] that [score_model] lets through is answered by
    the network-error clause of the handler. *)
Lemma request_exception_answer (data : value) (message : string) (e : exn) :
  truthy data = true ->
  validate data = Ok (true, message) ->
  (forall rq, requests_post rq = Raise e) ->
  isinstance e requests_Timeout = false ->
  isinstance e requests_ConnectionError = false ->
  isinstance e requests_RequestException = true ->
  handler (Ok data) =
  (jsonify [("success", VBool false);
            ("error",
             VStr ("Network error while calling model endpoint: " ++ str e))],
   500).
Proof.
  intros Htruthy Hvalid Hdown Htimeout Hconn Hreq.
  destruct (validated_items _ _ _ data message Hvalid) as [filled Hfilled].
  unfold predict, predict_try, build_dataframe_from_request, bind.
  rewrite Htruthy, Hvalid, Hfilled. simpl negb. cbv iota.
  unfold score_model. rewrite Hdown, Htimeout, Hconn, Hreq. reflexivity.
Qed.

(** C9, on the code: when the record passes validation and the call to the
    endpoint fails with a connection failure, [score_model] re-raises it as
    a plain [Exception], which the handler answers with status 400 and the
    generic application-error text, not with status 500. *)
Theorem connection_failure_answer (data : value) (message : string)
  (e : exn) :
  truthy data = true ->
  validate data = Ok (true, message) ->
  (forall rq, requests_post rq = Raise e) ->
  isinstance e requests_Timeout = false ->
  isinstance e requests_ConnectionError = true ->
  handler (Ok data) =
  (jsonify [("success", VBool false);
            ("error",
             VStr "An error occurred: Failed to connect to the model endpoint. Check your internet connection and endpoint URL.")],
   400).
Proof.
  intros Htruthy Hvalid Hdown Htimeout Hconn.
  destruct (validated_items _ _ _ data message Hvalid) as [filled Hfilled].
  unfold predict, predict_try, build_dataframe_from_request, bind.
  rewrite Htruthy, Hvalid, Hfilled. simpl negb. cbv iota.
  unfold score_model. rewrite Hdown, Htimeout, Hconn. reflexivity.
Qed.

(** C10: a body that parses to a falsy value, the empty object among them,
    is answered with status 400 and "No data provided in request body"; the
    answer is not the missing-features message, whatever features that
    message would list. *)
Theorem falsy_body_answer (data : value) :
  truthy data = false ->
  handler (Ok data) = no_data_answer
  /\ forall listing,
       handler (Ok data) <>
       (jsonify [("success", VBool false);
                 ("error", VStr ("Missing required features: " ++ listing))],
        400).
Proof.
  intros Hfalsy.
  assert (Hanswer : handler (Ok data) = no_data_answer)
    by now apply handler_falsy.
  split; [exact Hanswer|].
  intros listing. rewrite Hanswer. unfold no_data_answer. simpl.
  intros H. discriminate H.
Qed.

End Gateway.

(** ** Concrete runs *)

(** C2, on the code: with schema [["age"]], the record [{"age": 10**400}]
    holds every feature and its value cannot be coerced, yet validation does
    not answer with the invalid-value message: [float] raises
    [OverflowError], which [except (ValueError, TypeError)] lets through,
    and the handler reports it as a generic application error. *)
Theorem validate_overflow_escapes (parse_float : string -> option float)
  (repr : string -> string) (json_dumps : value -> string)
  (requests_post : request -> result response) :
  validate_input_data parse_float repr (Demo.config ["age"] [])
    (VDict [("age", VInt (10 ^ 400))]) =
  Raise (Exn OverflowError "int too large to convert to float")
  /\
  predict parse_float repr json_dumps requests_post (Demo.config ["age"] [])
    (Ok (VDict [("age", VInt (10 ^ 400))])) =
  (jsonify [("success", VBool false);
            ("error",
             VStr "An error occurred: int too large to convert to float")],
   400).
Proof. split; vm_compute; reflexivity. Qed.

(** C3: a configured default does not exempt a feature from the presence
    check.  With schema [["age", "income"]], defaults [{"income": 0.0}] and
    input [{"age": "34"}], validation fails naming [income]; and for every
    configuration, a schema feature that has a default and is absent from the
    record is listed as missing, so the handler answers 400. *)
Theorem defaults_do_not_exempt (parse_float : string -> option float)
  (repr : string -> string) :
  (forall url token timeout,
     validate_input_data parse_float repr
       {| MODEL_FEATURES := ["age"; "income"];
          DEFAULT_VALUES := [("income", VFloat 0%float)];
          MLFLOW_ENDPOINT_URL := url;
          DATABRICKS_TOKEN := token;
          REQUEST_TIMEOUT := timeout |}
       (VDict [("age", VStr "34")]) =
     Ok (false, "Missing required features: income"))
  /\
  (forall cfg r f,
     In f (MODEL_FEATURES cfg) ->
     Dict.mem f (DEFAULT_VALUES cfg) = true ->
     Dict.get f r = None ->
     validate_input_data parse_float repr cfg (VDict r) =
       Ok (false, "Missing required features: "
                    ++ String.concat ", " (absent_from r (MODEL_FEATURES cfg)))
     /\ In f (absent_from r (MODEL_FEATURES cfg))
     /\ forall json_dumps requests_post,
          snd (predict parse_float repr json_dumps requests_post cfg
                 (Ok (VDict r))) = 400).
Proof.
  split; [reflexivity|].
  intros cfg r f Hin _ Hnone.
  destruct (validate_lists_missing parse_float repr cfg r f Hin Hnone)
    as [Hmsg Habs].
  repeat split; [exact Hmsg | exact Habs |].
  intros json_dumps requests_post.
  destruct (truthy (VDict r)) eqn:Htruthy.
  - now rewrite (handler_rejected _ _ _ _ _ _ _ Htruthy Hmsg).
  - now rewrite handler_falsy.
Qed.

(** ** The theorems at concrete inputs *)

(** A complete record is accepted; one without [income] is rejected. *)
Lemma validate_complete_or_lists_all_missing_witness :
  validate_input_data Demo.parse_float Demo.repr scenario
    (VDict [("age", VStr "34"); ("income", VInt 3)]) = Ok (true, "")
  /\ validate_input_data Demo.parse_float Demo.repr scenario
       (VDict [("age", VStr "34")]) =
     Ok (false, "Missing required features: income").
Proof.
  split.
  - apply (proj1 (validate_complete_or_lists_all_missing
                    Demo.parse_float Demo.repr scenario
                    [("age", VStr "34"); ("income", VInt 3)])).
    intros f Hf. simpl in Hf. destruct Hf as [<-|[<-|[]]].
    + exists (VStr "34"), 34%float. split; reflexivity.
    + exists (VInt 3), 3%float. split; reflexivity.
  - apply (proj2 (validate_complete_or_lists_all_missing
                    Demo.parse_float Demo.repr scenario
                    [("age", VStr "34")])).
    exists "income". split; [simpl; auto | reflexivity].
Defined.

Lemma defaults_do_not_exempt_witness :
  validate_input_data Demo.parse_float Demo.repr scenario
    (VDict [("age", VStr "34")]) =
  Ok (false, "Missing required features: income").
Proof.
  apply (proj2 (defaults_do_not_exempt Demo.parse_float Demo.repr)
           scenario [("age", VStr "34")] "income").
  - simpl. auto.
  - reflexivity.
  - reflexivity.
Defined.

(** The builder raises on a record whose entry [float] rejects. *)
Lemma build_raises_on_unreadable_entry :
  build_dataframe_from_request Demo.parse_float Demo.repr
    (Demo.config ["age"] []) (VDict [("age", VStr "abc")]) =
  Raise (Exn ValueError "could not convert string to float: 'abc'").
Proof. reflexivity. Qed.

Lemma build_follows_schema_witness :
  (exists xs,
     build_dataframe_from_request Demo.parse_float Demo.repr scenario
       (VDict [("age", VStr "34")]) =
     Ok {| columns := ["age"; "income"]; index := [0]; data := [xs] |})
  /\ build_dataframe_from_request Demo.parse_float Demo.repr scenario
       (VDict [("age", VStr "34"); ("income", VNone)]) =
     Raise (Exn TypeError
              "float() argument must be a string or a real number, not 'NoneType'").
Proof.
  split.
  - destruct (proj1 (build_follows_schema Demo.parse_float Demo.repr
                       scenario [("age", VStr "34")]))
      as (xs & _ & _ & _ & _ & Hbuild).
    + repeat constructor; simpl; intuition discriminate.
    + repeat constructor.
      * exists 34%float. reflexivity.
      * exists 0%float. reflexivity.
    + exists xs. exact Hbuild.
  - apply (proj2 (proj2 (build_follows_schema Demo.parse_float Demo.repr
                           scenario
                           [("age", VStr "34"); ("income", VNone)]))
             ["age"] "income" []).
    + reflexivity.
    + repeat constructor. exists 34%float. reflexivity.
    + reflexivity.
Defined.

Lemma build_total_after_validate_witness :
  exists df,
    build_dataframe_from_request Demo.parse_float Demo.repr scenario
      (VDict [("age", VStr "34"); ("income", VInt 3)]) = Ok df.
Proof.
  apply (build_total_after_validate Demo.parse_float Demo.repr scenario
           (VDict [("age", VStr "34"); ("income", VInt 3)]) "").
  reflexivity.
Defined.

Lemma encode_shapes_witness :
  wrap_columns [("age", VFloat 34%float); ("income", VFloat 0%float)] =
    [("age", VList [VFloat 34%float]); ("income", VList [VFloat 0%float])]
  /\ create_tf_serving_json
       (a_frame (pd_DataFrame
                   [combine ["age"; "income"] [34%float; 0%float]])) =
     VDict [("dataframe_split",
             VDict [("index", VList [VInt 0]);
                    ("columns", VList [VStr "age"; VStr "income"]);
                    ("data", VList [VList [VFloat 34%float;
                                           VFloat 0%float]])])].
Proof.
  destruct (encode_shapes
              [("age", VFloat 34%float); ("income", VFloat 0%float)]
              ["age"; "income"] [34%float; 0%float])
    as [(_ & _ & Hrecord) Htable].
  split.
  - apply Hrecord. repeat constructor; simpl; intuition discriminate.
  - apply Htable.
    + repeat constructor; simpl; intuition discriminate.
    + reflexivity.
Defined.

(** ["predictions"] wins over ["data"]. *)
Lemma normalize_precedence_witness :
  normalize Demo.repr
    (VDict [("data", VList [VInt 7]);
            ("predictions", VList [VFloat 0.87])]) =
  Ok (VFloat 0.87).
Proof.
  apply (proj1 (normalize_precedence Demo.repr)
           [("data", VList [VInt 7]); ("predictions", VList [VFloat 0.87])]
           (VList [VFloat 0.87])).
  reflexivity.
Defined.

(** The normaliser raises on an empty list of predictions. *)
Lemma normalize_raises_on_empty_predictions :
  normalize Demo.repr (VDict [("predictions", VList [])]) =
  Raise (Exn IndexError "list index out of range").
Proof. reflexivity. Qed.

Lemma normalize_returns_iff_witness :
  normalize Demo.repr (VDict [("data", VList [VInt 1; VInt 2])]) =
  Ok (VInt 1).
Proof.
  destruct (normalize_returns_iff Demo.repr
              (VDict [("data", VList [VInt 1; VInt 2])]))
    as (_ & _ & Hfirst & _).
  apply (Hfirst (VInt 1) [VInt 2]). reflexivity.
Defined.

Lemma connection_failure_answer_witness :
  predict Demo.parse_float Demo.repr Demo.json_dumps Demo.unreachable
    scenario (Ok (VDict [("age", VStr "34"); ("income", VInt 3)])) =
  (jsonify [("success", VBool false);
            ("error",
             VStr "An error occurred: Failed to connect to the model endpoint. Check your internet connection and endpoint URL.")],
   400).
Proof.
  apply (connection_failure_answer Demo.parse_float Demo.repr
           Demo.json_dumps Demo.unreachable scenario
           (VDict [("age", VStr "34"); ("income", VInt 3)]) ""
           (Exn requests_ConnectionError "Connection refused")).
  - reflexivity.
  - reflexivity.
  - intros rq. reflexivity.
  - reflexivity.
  - reflexivity.
Defined.

Lemma falsy_body_answer_witness :
  predict Demo.parse_float Demo.repr Demo.json_dumps Demo.unreachable
    scenario (Ok (VDict [])) = no_data_answer.
Proof.
  apply (falsy_body_answer Demo.parse_float Demo.repr Demo.json_dumps
           Demo.unreachable scenario (VDict [])).
  reflexivity.
Defined.

(** ** Further properties: the scoring call and the handler *)

Section Flow.

Variable parse_float : string -> option float.
Variable repr : string -> string.
Variable json_dumps : value -> string.
Variable requests_post : request -> result response.
Variable Config : ConfigT.

Local Abbreviation validate := (validate_input_data parse_float repr Config).
Local Abbreviation build :=
  (build_dataframe_from_request parse_float repr Config).
Local Abbreviation score := (score_model json_dumps requests_post Config).
Local Abbreviation handler :=
  (predict parse_float repr json_dumps requests_post Config).
Local Abbreviation sent := (sent_request json_dumps Config).

Lemma score_model_sent (df : DataFrame) :
  score df =
  match requests_post (sent df) with
  | Raise e =>
      if isinstance e requests_Timeout then
        Raise (Exn Exception
                 ("Request timed out after "
                    ++ str_of_int (REQUEST_TIMEOUT Config)
                    ++ " seconds. The model endpoint may be slow or unavailable."))
      else if isinstance e requests_ConnectionError then
        Raise (Exn Exception
                 "Failed to connect to the model endpoint. Check your internet connection and endpoint URL.")
      else Raise e
  | Ok resp =>
      if negb (status_code resp =? 200) then
        Raise (Exn Exception
                 ("Request failed with status "
                    ++ str_of_int (status_code resp)
                    ++ ". Response: " ++ text resp))
      else resp_json resp
  end.
Proof. reflexivity. Qed.

(** The handler once the body is truthy, valid and built into a frame. *)
Lemma handler_scored (data : value) (message : string) (df : DataFrame) :
  truthy data = true ->
  validate data = Ok (true, message) ->
  build data = Ok df ->
  handler (Ok data) =
  match score df with
  | Raise e => except_answer e
  | Ok result =>
      match normalize repr result with
      | Raise e => except_answer e
      | Ok prediction => success_answer prediction
      end
  end.
Proof.
  intros Htruthy Hvalid Hbuild.
  unfold predict, predict_try, bind. rewrite Htruthy, Hvalid, Hbuild.
  simpl negb. cbv iota.
  destruct (score df) as [result|e]; [|reflexivity].
  destruct (normalize repr result); reflexivity.
Qed.

Lemma handler_except (get_json : result value) (e : exn) :
  predict_try parse_float repr json_dumps requests_post Config get_json
    = Raise e ->
  handler get_json = except_answer e.
Proof. intros H. unfold predict. now rewrite H. Qed.

(** X1: whatever the request and the network do, the handler answers with
    one of three envelopes: success with a prediction and status 200, or
    failure with an error text and status 400 or 500. *)
Theorem handler_answers_envelope (get_json : result value) :
  (exists prediction, handler get_json = success_answer prediction)
  \/ (exists message, handler get_json = error_answer message 400)
  \/ (exists message, handler get_json = error_answer message 500).
Proof.
  unfold predict.
  destruct (predict_try parse_float repr json_dumps requests_post Config
              get_json) as [answer|e] eqn:Htry.
  - revert Htry. unfold predict_try, bind.
    destruct get_json as [data|e]; [|discriminate].
    destruct (truthy data); simpl negb; cbv iota.
    + destruct (validate data) as [[[|] message]|e]; simpl negb; cbv iota;
        [| intros H; injection H as <-; right; left; eexists; reflexivity
         | discriminate].
      destruct (build data) as [df|e]; [|discriminate].
      destruct (score df) as [result|e]; [|discriminate].
      destruct (normalize repr result) as [prediction|e]; [|discriminate].
      intros H. injection H as <-. left. eexists. reflexivity.
    + intros H. injection H as <-. right. left. eexists. reflexivity.
  - destruct (isinstance e requests_RequestException).
    + right. right. eexists. reflexivity.
    + right. left. eexists. reflexivity.
Qed.

(** X2: the handler answers success with a given prediction exactly when
    the body parsed to a truthy value that passed validation, the frame was
    built, the scoring call returned a result and the extraction on that
    result returned the prediction. *)
Theorem handler_success_iff (get_json : result value) (prediction : value) :
  handler get_json = success_answer prediction <->
  exists data message df result,
    get_json = Ok data /\ truthy data = true
    /\ validate data = Ok (true, message)
    /\ build data = Ok df
    /\ score df = Ok result
    /\ normalize repr result = Ok prediction.
Proof.
  split.
  - unfold predict, predict_try, bind.
    destruct get_json as [data|e];
      [|case_if; intros H; discriminate H].
    destruct (truthy data) eqn:Htruthy; simpl negb; cbv iota;
      [|intros H; discriminate H].
    destruct (validate data) as [[[|] message]|e] eqn:Hvalid;
      simpl negb; cbv iota;
      [| intros H; discriminate H | case_if; intros H; discriminate H].
    destruct (build data) as [df|e] eqn:Hbuild;
      [|case_if; intros H; discriminate H].
    destruct (score df) as [result|e] eqn:Hscore;
      [|case_if; intros H; discriminate H].
    destruct (normalize repr result) as [p|e] eqn:Hnorm;
      [|case_if; intros H; discriminate H].
    intros H. injection H as <-.
    exists data, message, df, result. auto 10.
  - intros (data & message & df & result & -> & Htruthy & Hvalid & Hbuild
            & Hscore & Hnorm).
    rewrite (handler_scored data message df Htruthy Hvalid Hbuild).
    now rewrite Hscore, Hnorm.
Qed.

(** X3: the scoring call returns a value exactly when the endpoint answered
    the request with status 200 and the body parsed to that value. *)
Theorem score_model_returns_iff (df : DataFrame) (v : value) :
  score df = Ok v <->
  exists resp,
    requests_post (sent df) = Ok resp
    /\ status_code resp = 200
    /\ resp_json resp = Ok v.
Proof.
  rewrite score_model_sent. split.
  - destruct (requests_post (sent df)) as [resp|e].
    + destruct (status_code resp =? 200) eqn:Hstatus; simpl negb; cbv iota;
        [|discriminate].
      intros Hjson. exists resp. apply Z.eqb_eq in Hstatus. auto.
    + repeat case_if; discriminate.
  - intros (resp & -> & Hstatus & Hjson).
    rewrite Hstatus. exact Hjson.
Qed.

(** X4: when the call to the endpoint times out (a connect timeout
    included, although it is a connection error too), the handler answers
    400 with the timed-out text, which carries the configured timeout. *)
Theorem timeout_answer (data : value) (message : string) (df : DataFrame)
  (e : exn) :
  truthy data = true ->
  validate data = Ok (true, message) ->
  build data = Ok df ->
  requests_post (sent df) = Raise e ->
  isinstance e requests_Timeout = true ->
  handler (Ok data) =
  error_answer
    ("An error occurred: Request timed out after "
       ++ str_of_int (REQUEST_TIMEOUT Config)
       ++ " seconds. The model endpoint may be slow or unavailable.")
    400.
Proof.
  intros Htruthy Hvalid Hbuild Hpost Htimeout.
  rewrite (handler_scored data message df Htruthy Hvalid Hbuild).
  rewrite score_model_sent, Hpost, Htimeout. reflexivity.
Qed.

(** X5: when the endpoint answers with a status other than 200, the
    handler answers 400 with a text that carries that status and the body
    of the response; the response is not parsed as JSON. *)
Theorem http_error_answer (data : value) (message : string)
  (df : DataFrame) (resp : response) :
  truthy data = true ->
  validate data = Ok (true, message) ->
  build data = Ok df ->
  requests_post (sent df) = Ok resp ->
  status_code resp <> 200 ->
  handler (Ok data) =
  error_answer
    ("An error occurred: Request failed with status "
       ++ str_of_int (status_code resp)
       ++ ". Response: " ++ text resp)
    400.
Proof.
  intros Htruthy Hvalid Hbuild Hpost Hstatus.
  rewrite (handler_scored data message df Htruthy Hvalid Hbuild).
  rewrite score_model_sent, Hpost.
  apply Z.eqb_neq in Hstatus. rewrite Hstatus. reflexivity.
Qed.

(** X6: when the endpoint answers 200 with a body that does not parse,
    the exception of [response.json()] reaches the handler unchanged: the
    answer is 500 with the network-error text if it is a
    [RequestException], and 400 with the generic text otherwise. *)
Theorem malformed_response_answer (data : value) (message : string)
  (df : DataFrame) (resp : response) (e : exn) :
  truthy data = true ->
  validate data = Ok (true, message) ->
  build data = Ok df ->
  requests_post (sent df) = Ok resp ->
  status_code resp = 200 ->
  resp_json resp = Raise e ->
  handler (Ok data) =
  if isinstance e requests_RequestException
  then error_answer
         ("Network error while calling model endpoint: " ++ str e) 500
  else error_answer ("An error occurred: " ++ str e) 400.
Proof.
  intros Htruthy Hvalid Hbuild Hpost Hstatus Hjson.
  rewrite (handler_scored data message df Htruthy Hvalid Hbuild).
  rewrite score_model_sent, Hpost, Hstatus, Hjson. reflexivity.
Qed.

End Flow.

(** ** Further properties: where the exceptions of the handler come from *)

(** The built-ins raise nothing of [requests]. *)
Lemma builtin_class_not_request (e : exn) :
  In (exn_class_of e)
     [ValueError; TypeError; OverflowError; IndexError; KeyError;
      AttributeError] ->
  isinstance e requests_RequestException = false.
Proof.
  unfold isinstance. simpl.
  intros [<-|[<-|[<-|[<-|[<-|[<-|[]]]]]]]; reflexivity.
Qed.

Ltac builtin_raise :=
  match goal with
  | |- Raise ?e0 = Raise _ -> _ =>
      let H := fresh in intros H; injection H as <-; reflexivity
  | |- _ = _ -> _ => discriminate
  end.

Section Origins.

Variable parse_float : string -> option float.
Variable repr : string -> string.
Variable Config : ConfigT.

Local Abbreviation float_ := (py_float parse_float repr).
Local Abbreviation getitem := (py_getitem repr).
Local Abbreviation validate := (validate_input_data parse_float repr Config).
Local Abbreviation check := (check_values parse_float repr).
Local Abbreviation items := (feature_items parse_float repr Config).
Local Abbreviation build :=
  (build_dataframe_from_request parse_float repr Config).

Lemma py_float_not_request (v : value) (e : exn) :
  float_ v = Raise e -> isinstance e requests_RequestException = false.
Proof.
  intros H. apply builtin_class_not_request.
  destruct (py_float_raises parse_float repr v e H) as [Hc|[Hc|[Hc _]]];
    rewrite Hc; simpl; auto.
Qed.

Lemma py_in_not_request (k : string) (data : value) (e : exn) :
  py_in k data = Raise e -> isinstance e requests_RequestException = false.
Proof. destruct data; simpl; builtin_raise. Qed.

Lemma py_getitem_not_request (data : value) (k : string) (e : exn) :
  getitem data k = Raise e -> isinstance e requests_RequestException = false.
Proof.
  destruct data; simpl; try builtin_raise.
  destruct (Dict.get k d); builtin_raise.
Qed.

Lemma py_get_not_request (data : value) (k : string) (default : value)
  (e : exn) :
  py_get data k default = Raise e ->
  isinstance e requests_RequestException = false.
Proof. destruct data; simpl; builtin_raise. Qed.

Lemma py_first_not_request (v : value) (e : exn) :
  py_first v = Raise e -> isinstance e requests_RequestException = false.
Proof.
  destruct v as [| b | n | x | [|c s] | [|y l] | d]; simpl; builtin_raise.
Qed.

Lemma missing_from_not_request (data : value) (features : list string)
  (e : exn) :
  missing_from data features = Raise e ->
  isinstance e requests_RequestException = false.
Proof.
  induction features as [|f rest IH]; simpl; [discriminate|].
  destruct (py_in f data) as [present|e0] eqn:Hin; simpl.
  - destruct (missing_from data rest); simpl; [discriminate|].
    intros H. injection H as <-. now apply IH.
  - intros H. injection H as <-. exact (py_in_not_request _ _ _ Hin).
Qed.

Lemma check_values_not_request (data : value) (features : list string)
  (e : exn) :
  check data features = Raise e ->
  isinstance e requests_RequestException = false.
Proof.
  induction features as [|f rest IH]; simpl; [discriminate|].
  destruct (getitem data f) as [v|e0] eqn:Hv; simpl.
  - destruct (float_ v) as [x|e0] eqn:Hx; [exact IH|].
    case_if; [discriminate|].
    intros H. injection H as <-. exact (py_float_not_request _ _ Hx).
  - case_if; [discriminate|].
    intros H. injection H as <-. exact (py_getitem_not_request _ _ _ Hv).
Qed.

Lemma validate_not_request (data : value) (e : exn) :
  validate data = Raise e -> isinstance e requests_RequestException = false.
Proof.
  unfold validate_input_data.
  destruct (missing_from data (MODEL_FEATURES Config)) as [[|m ms]|e0] eqn:Hm;
    simpl.
  - apply check_values_not_request.
  - discriminate.
  - intros H. injection H as <-. exact (missing_from_not_request _ _ _ Hm).
Qed.

Lemma feature_items_not_request (data : value) (features : list string)
  (acc : dict float) (e : exn) :
  items data features acc = Raise e ->
  isinstance e requests_RequestException = false.
Proof.
  revert acc. induction features as [|f rest IH]; intros acc; simpl;
    [discriminate|].
  match goal with
  | |- context [py_get data f ?d] =>
      destruct (py_get data f d) as [v|e0] eqn:Hv
  end; simpl.
  - destruct (float_ v) as [x|e0] eqn:Hx; simpl; [apply IH|].
    intros H. injection H as <-. exact (py_float_not_request _ _ Hx).
  - intros H. injection H as <-. exact (py_get_not_request _ _ _ _ Hv).
Qed.

Lemma build_not_request (data : value) (e : exn) :
  build data = Raise e -> isinstance e requests_RequestException = false.
Proof.
  unfold build_dataframe_from_request.
  destruct (items data (MODEL_FEATURES Config) []) as [filled|e0] eqn:Hitems;
    simpl; [discriminate|].
  intros H. injection H as <-. exact (feature_items_not_request _ _ _ _ Hitems).
Qed.

Lemma normalize_not_request (response : value) (e : exn) :
  normalize repr response = Raise e ->
  isinstance e requests_RequestException = false.
Proof.
  rewrite normalize_target.
  destruct (extraction_target response); [|discriminate].
  apply py_first_not_request.
Qed.

End Origins.

Section Routing.

Variable parse_float : string -> option float.
Variable repr : string -> string.
Variable json_dumps : value -> string.
Variable Config : ConfigT.

Local Abbreviation getitem := (py_getitem repr).
Local Abbreviation float_ := (py_float parse_float repr).
Local Abbreviation validate := (validate_input_data parse_float repr Config).
Local Abbreviation build :=
  (build_dataframe_from_request parse_float repr Config).
Local Abbreviation sent := (sent_request json_dumps Config).

(** Where an exception of the [try] block was raised. *)
Lemma predict_try_raises (requests_post : request -> result response)
  (get_json : result value) (e : exn) :
  predict_try parse_float repr json_dumps requests_post Config get_json
    = Raise e ->
  get_json = Raise e
  \/ exists data, get_json = Ok data /\
       (validate data = Raise e
        \/ build data = Raise e
        \/ exists df, build data = Ok df /\
             (score_model json_dumps requests_post Config df = Raise e
              \/ exists result,
                   score_model json_dumps requests_post Config df = Ok result
                   /\ normalize repr result = Raise e)).
Proof.
  unfold predict_try, bind.
  destruct get_json as [data|e0]; [|intros H; injection H as <-; now left].
  intros H. right. exists data. split; [reflexivity|]. revert H.
  destruct (truthy data); simpl negb; cbv iota; [|discriminate].
  destruct (validate data) as [[[|] message]|e0]; simpl negb; cbv iota;
    [| discriminate | intros H; injection H as <-; now left].
  destruct (build data) as [df|e0];
    [|intros H; injection H as <-; right; now left].
  destruct (score_model json_dumps requests_post Config df) as [result|e0]
    eqn:Hscore.
  - destruct (normalize repr result) as [p|e0] eqn:Hnorm; [discriminate|].
    intros H. injection H as <-. right. right. exists df. split; eauto.
  - intros H. injection H as <-. right. right. exists df. split; auto.
Qed.

Lemma predict_try_status (requests_post : request -> result response)
  (get_json : result value) (answer : value * Z) :
  predict_try parse_float repr json_dumps requests_post Config get_json
    = Ok answer ->
  snd answer = 200 \/ snd answer = 400.
Proof.
  unfold predict_try, bind.
  destruct get_json as [data|e0]; [|discriminate].
  destruct (truthy data); simpl negb; cbv iota;
    [|intros H; injection H as <-; now right].
  destruct (validate data) as [[[|] message]|e0]; simpl negb; cbv iota;
    [| intros H; injection H as <-; now right | discriminate].
  destruct (build data) as [df|e0]; [|discriminate].
  destruct (score_model json_dumps requests_post Config df) as [result|e0];
    [|discriminate].
  destruct (normalize repr result) as [p|e0]; [|discriminate].
  intros H. injection H as <-. now left.
Qed.

(** X7: status 500 has two origins only, apart from a body parser that
    itself raises a [RequestException]: [requests.post] raised a
    [RequestException] that is neither a timeout nor a connection error, or
    the endpoint answered 200 and [response.json()] raised one.  Timeouts,
    connection failures, other statuses and every failure of validation,
    building or extraction are never answered with 500. *)
Theorem server_error_origin (requests_post : request -> result response)
  (get_json : result value) :
  snd (predict parse_float repr json_dumps requests_post Config get_json)
    = 500 ->
  exists e,
    isinstance e requests_RequestException = true
    /\ (get_json = Raise e
        \/ exists data df,
             get_json = Ok data /\ build data = Ok df
             /\ ((requests_post (sent df) = Raise e
                  /\ isinstance e requests_Timeout = false
                  /\ isinstance e requests_ConnectionError = false)
                 \/ exists resp,
                      requests_post (sent df) = Ok resp
                      /\ status_code resp = 200
                      /\ resp_json resp = Raise e)).
Proof.
  unfold predict.
  destruct (predict_try parse_float repr json_dumps requests_post Config
              get_json) as [answer|e] eqn:Htry.
  - intros H500. apply predict_try_status in Htry. lia.
  - destruct (isinstance e requests_RequestException) eqn:Hreq;
      [intros _ | simpl; discriminate].
    exists e. split; [exact Hreq|].
    apply predict_try_raises in Htry.
    destruct Htry as [Hget | (data & -> & Hwhere)]; [now left|].
    right. exists data.
    destruct Hwhere as [Hv | [Hb | (df & Hbuild & Hwhere)]].
    + apply validate_not_request in Hv. congruence.
    + apply build_not_request in Hb. congruence.
    + exists df. split; [reflexivity|]. split; [exact Hbuild|].
      destruct Hwhere as [Hscore | (result & _ & Hnorm)];
        [|apply normalize_not_request in Hnorm; congruence].
      rewrite score_model_sent in Hscore.
      destruct (requests_post (sent df)) as [resp|e0].
      * right. exists resp. split; [reflexivity|].
        destruct (status_code resp =? 200) eqn:Hstatus;
          simpl negb in Hscore; cbv iota in Hscore.
        -- apply Z.eqb_eq in Hstatus. auto.
        -- injection Hscore as <-. discriminate Hreq.
      * left.
        destruct (isinstance e0 requests_Timeout) eqn:Ht;
          [injection Hscore as <-; discriminate Hreq|].
        destruct (isinstance e0 requests_ConnectionError) eqn:Hc;
          [injection Hscore as <-; discriminate Hreq|].
        injection Hscore as ->. auto.
Qed.

(** X8: a request that is not accepted never reaches the endpoint: when
    the body does not parse, is falsy, or fails validation, the answer is
    the same whatever the network would have done. *)
Theorem unaccepted_request_not_scored
  (network other_network : request -> result response)
  (get_json : result value) :
  (forall data message,
     get_json = Ok data -> truthy data = true ->
     validate data <> Ok (true, message)) ->
  predict parse_float repr json_dumps network Config get_json =
  predict parse_float repr json_dumps other_network Config get_json.
Proof.
  intros Hunaccepted. unfold predict, predict_try, bind.
  destruct get_json as [data|e]; [|reflexivity].
  destruct (truthy data) eqn:Htruthy; simpl negb; cbv iota; [|reflexivity].
  destruct (validate data) as [[[|] message]|e] eqn:Hvalid;
    simpl negb; cbv iota; try reflexivity.
  now destruct (Hunaccepted data message eq_refl Htruthy).
Qed.

Lemma feature_items_defaults (other : dict value) (data : value)
  (features : list string) (acc : dict float) :
  (forall f, In f features ->
     exists v x, getitem data f = Ok v /\ float_ v = Ok x) ->
  feature_items parse_float repr (with_defaults Config other) data features acc
  = feature_items parse_float repr Config data features acc.
Proof.
  revert acc. induction features as [|f rest IH]; intros acc Hall; simpl.
  - reflexivity.
  - destruct (Hall f (or_introl eq_refl)) as (v & x & Hv & Hx).
    rewrite !(getitem_get repr data f v _ Hv). simpl. rewrite Hx. simpl.
    apply IH. intros g Hg. apply Hall. now right.
Qed.

(** X9: the configured defaults never influence an answer of the handler:
    with any other defaults, every request gets the same answer, because
    validation has required every feature before the builder looks one up. *)
Theorem defaults_never_used (requests_post : request -> result response)
  (other : dict value) (get_json : result value) :
  predict parse_float repr json_dumps requests_post
    (with_defaults Config other) get_json =
  predict parse_float repr json_dumps requests_post Config get_json.
Proof.
  unfold predict, predict_try, bind.
  destruct get_json as [data|e]; [|reflexivity].
  destruct (truthy data); simpl negb; cbv iota; [|reflexivity].
  change (validate_input_data parse_float repr (with_defaults Config other)
            data) with (validate data).
  destruct (validate data) as [[[|] message]|e] eqn:Hvalid;
    simpl negb; cbv iota; try reflexivity.
  unfold build_dataframe_from_request, bind.
  change (MODEL_FEATURES (with_defaults Config other))
    with (MODEL_FEATURES Config).
  rewrite feature_items_defaults; [reflexivity|].
  apply validate_ok_inv in Hvalid.
  exact (check_values_ok_inv parse_float repr _ _ _ Hvalid).
Qed.

End Routing.

(** ** Further properties: the validator on any body *)

Section Bodies.

Variable parse_float : string -> option float.
Variable repr : string -> string.
Variable Config : ConfigT.

Local Abbreviation float_ := (py_float parse_float repr).
Local Abbreviation getitem := (py_getitem repr).
Local Abbreviation validate := (validate_input_data parse_float repr Config).
Local Abbreviation check := (check_values parse_float repr).
Local Abbreviation build :=
  (build_dataframe_from_request parse_float repr Config).

Lemma missing_from_incl (data : value) (features missing : list string) :
  missing_from data features = Ok missing -> incl missing features.
Proof.
  revert missing. induction features as [|f rest IH]; simpl; intros missing.
  - intros H. injection H as <-. apply incl_refl.
  - destruct (py_in f data) as [present|e]; simpl; [|discriminate].
    destruct (missing_from data rest) as [others|e]; simpl; [|discriminate].
    intros H. injection H as <-.
    destruct present.
    + apply incl_tl. now apply IH.
    + apply incl_cons; [now left | apply incl_tl; now apply IH].
Qed.

Lemma check_values_verdict (data : value) (features : list string)
  (is_valid : bool) (message : string) :
  check data features = Ok (is_valid, message) ->
  (is_valid = true /\ message = "")
  \/ (is_valid = false /\
      exists f, In f features /\
        message = "Invalid value for feature '" ++ f
                    ++ "': must be a number").
Proof.
  induction features as [|f rest IH]; simpl.
  - intros H. injection H as <- <-. now left.
  - destruct (getitem data f) as [v|e]; simpl;
      [destruct (float_ v) as [x|e]|].
    + intros H. destruct (IH H) as [Hok|(Hbad & g & Hg & Hmsg)];
        [now left | right; eauto 6].
    + case_if; [|discriminate].
      intros H. injection H as <- <-. right. eauto.
    + case_if; [|discriminate].
      intros H. injection H as <- <-. right. eauto.
Qed.

(** X10: the verdict and the message go together.  An accepting verdict
    carries the empty message; a rejecting one carries either the
    missing-features text over a non-empty list of schema features, or the
    invalid-value text naming one schema feature. *)
Theorem validate_verdict_message (data : value) (is_valid : bool)
  (message : string) :
  validate data = Ok (is_valid, message) ->
  (is_valid = true /\ message = "")
  \/ (is_valid = false /\
      ((exists missing,
          missing <> [] /\ incl missing (MODEL_FEATURES Config)
          /\ message = "Missing required features: "
                         ++ String.concat ", " missing)
       \/ exists f,
            In f (MODEL_FEATURES Config)
            /\ message = "Invalid value for feature '" ++ f
                           ++ "': must be a number")).
Proof.
  unfold validate_input_data.
  destruct (missing_from data (MODEL_FEATURES Config)) as [[|m ms]|e]
    eqn:Hmissing; simpl; [| |discriminate].
  - intros H. apply check_values_verdict in H.
    destruct H as [Hok|(Hbad & f & Hf & Hmsg)]; [now left|].
    right. split; [exact Hbad|]. right. eauto.
  - intros H. injection H as <- <-. right. split; [reflexivity|]. left.
    exists (m :: ms). split; [discriminate|].
    split; [exact (missing_from_incl _ _ _ Hmissing) | reflexivity].
Qed.

Lemma getitem_ok_record (data : value) (f : string) (v : value) :
  getitem data f = Ok v <-> exists r, data = VDict r /\ Dict.get f r = Some v.
Proof.
  split.
  - destruct data; simpl; try discriminate.
    destruct (Dict.get f d) as [w|] eqn:Hw; [|discriminate].
    intros H. injection H as <-. eauto.
  - intros (r & -> & Hget). simpl. now rewrite Hget.
Qed.

(** X11: validation accepts a body exactly when, for every schema feature,
    the body is an object that holds the feature with a value [float]
    accepts.  With an empty schema every body is accepted; with a non-empty
    one no array, string or scalar is. *)
Theorem validate_accepts_iff (data : value) (message : string) :
  validate data = Ok (true, message) <->
  message = ""
  /\ forall f, In f (MODEL_FEATURES Config) ->
       exists r v x,
         data = VDict r /\ Dict.get f r = Some v /\ float_ v = Ok x.
Proof.
  split.
  - intros Hvalid. split.
    + apply validate_ok_inv in Hvalid.
      destruct (check_values_verdict data _ true message Hvalid)
        as [[_ Hmsg]|[Hfalse _]]; [exact Hmsg | discriminate].
    + intros f Hf. apply validate_ok_inv in Hvalid.
      destruct (check_values_ok_inv parse_float repr _ _ _ Hvalid f Hf)
        as (v & x & Hv & Hx).
      apply getitem_ok_record in Hv. destruct Hv as (r & Hdata & Hget).
      eauto 6.
  - intros [-> Hall].
    destruct (MODEL_FEATURES Config) as [|f0 rest] eqn:Hfeatures.
    + unfold validate_input_data. now rewrite Hfeatures.
    + destruct (Hall f0 (or_introl eq_refl)) as (r & _ & _ & -> & _ & _).
      rewrite <- Hfeatures in Hall.
      assert (Hpresent : forall f, In f (MODEL_FEATURES Config) ->
                exists v x, Dict.get f r = Some v /\ float_ v = Ok x).
      { intros f Hf. destruct (Hall f Hf) as (r' & v & x & Hr & Hv & Hx).
        injection Hr as <-. eauto. }
      unfold validate_input_data. rewrite missing_from_record. simpl bind.
      rewrite absent_from_nil.
      * now apply check_values_accepts.
      * intros f Hf. destruct (Hpresent f Hf) as (v & _ & Hv & _).
        congruence.
Qed.

Lemma missing_from_all_present (data : value) (features : list string) :
  (forall f, In f features -> py_in f data = Ok true) ->
  missing_from data features = Ok [].
Proof.
  induction features as [|f rest IH]; simpl; intros Hall; [reflexivity|].
  rewrite (Hall f (or_introl eq_refl)). simpl.
  rewrite IH; [reflexivity|]. intros g Hg. apply Hall. now right.
Qed.

(** X12: a body that is an array or a string in which every feature name
    is found (as an element of the array, as a substring of the string)
    passes the presence test and is then rejected with the invalid-value
    text naming the first schema feature, since subscripting it with a
    feature name raises [TypeError]. *)
Theorem validate_array_or_string_body (data : value) (f : string)
  (rest : list string) :
  MODEL_FEATURES Config = f :: rest ->
  (exists l, data = VList l) \/ (exists s, data = VStr s) ->
  (forall g, In g (f :: rest) -> py_in g data = Ok true) ->
  validate data =
  Ok (false, "Invalid value for feature '" ++ f ++ "': must be a number").
Proof.
  intros Hfeatures Hshape Hfound. unfold validate_input_data.
  rewrite Hfeatures, (missing_from_all_present data (f :: rest) Hfound).
  destruct Hshape as [[l ->]|[s ->]]; reflexivity.
Qed.

(** X13: a body that is a number, a boolean or null makes validation
    against a non-empty schema raise the [TypeError] of the membership test;
    if the body is truthy the handler answers 400 with the generic text
    around the interpreter's message. *)
Theorem validate_scalar_body (data : value) (f : string)
  (rest : list string) :
  MODEL_FEATURES Config = f :: rest ->
  is_scalar data = true ->
  validate data =
    Raise (Exn TypeError
             ("argument of type '" ++ type_name data ++ "' is not iterable"))
  /\ (truthy data = true ->
      forall json_dumps requests_post,
        predict parse_float repr json_dumps requests_post Config (Ok data) =
        error_answer
          ("An error occurred: argument of type '" ++ type_name data
             ++ "' is not iterable") 400).
Proof.
  intros Hfeatures Hscalar.
  assert (Hraise : validate data =
            Raise (Exn TypeError
                     ("argument of type '" ++ type_name data
                        ++ "' is not iterable"))).
  { unfold validate_input_data. rewrite Hfeatures.
    destruct data; try discriminate; reflexivity. }
  split; [exact Hraise|].
  intros Htruthy json_dumps requests_post.
  unfold predict, predict_try, bind. rewrite Htruthy, Hraise. reflexivity.
Qed.

(** X14: with every feature present, the first feature whose value is not
    coercible and is not an integer (null, an array, an object, a string
    [float] rejects) is the one the invalid-value text names; features after
    it are not examined. *)
Theorem validate_names_first_invalid (r : dict value)
  (before after : list string) (f : string) (v : value) (e : exn) :
  MODEL_FEATURES Config = (before ++ f :: after)%list ->
  (forall g, In g (MODEL_FEATURES Config) -> Dict.get g r <> None) ->
  (forall g, In g before ->
     exists w x, Dict.get g r = Some w /\ float_ w = Ok x) ->
  Dict.get f r = Some v ->
  float_ v = Raise e ->
  (forall n, v <> VInt n) ->
  validate (VDict r) =
  Ok (false, "Invalid value for feature '" ++ f ++ "': must be a number").
Proof.
  intros Hsplit Hpresent Hbefore Hv He Hnot_int.
  rewrite (validate_first_invalid parse_float repr Config r before after
             f v e Hsplit Hpresent Hbefore Hv He).
  destruct (py_float_raises parse_float repr v e He)
    as [Hc|[Hc|[_ [n Hn]]]].
  - unfold isinstance. now rewrite Hc.
  - unfold isinstance. now rewrite Hc.
  - now destruct (Hnot_int n).
Qed.

Lemma check_values_agree (r1 r2 : dict value) (features : list string) :
  (forall f, In f features -> Dict.get f r1 = Dict.get f r2) ->
  check (VDict r1) features = check (VDict r2) features.
Proof.
  induction features as [|f rest IH]; simpl; intros Hagree; [reflexivity|].
  rewrite (Hagree f (or_introl eq_refl)).
  rewrite IH; [reflexivity|]. intros g Hg. apply Hagree. now right.
Qed.

Lemma feature_items_agree (r1 r2 : dict value) (features : list string)
  (acc : dict float) :
  (forall f, In f features -> Dict.get f r1 = Dict.get f r2) ->
  feature_items parse_float repr Config (VDict r1) features acc =
  feature_items parse_float repr Config (VDict r2) features acc.
Proof.
  revert acc. induction features as [|f rest IH]; simpl; intros acc Hagree;
    [reflexivity|].
  rewrite (Hagree f (or_introl eq_refl)).
  destruct (float_ _) as [x|e]; simpl; [|reflexivity].
  apply IH. intros g Hg. apply Hagree. now right.
Qed.

(** X15: only the schema features of a record count.  Two records that
    agree on every schema feature (they may differ in other keys and in the
    order of their keys) get the same verdict and the same frame, and, when
    neither is empty, the same answer from the handler. *)
Theorem extra_keys_ignored (r1 r2 : dict value) :
  (forall f, In f (MODEL_FEATURES Config) ->
     Dict.get f r1 = Dict.get f r2) ->
  validate (VDict r1) = validate (VDict r2)
  /\ build (VDict r1) = build (VDict r2)
  /\ (r1 <> [] -> r2 <> [] ->
      forall json_dumps requests_post,
        predict parse_float repr json_dumps requests_post Config
          (Ok (VDict r1)) =
        predict parse_float repr json_dumps requests_post Config
          (Ok (VDict r2))).
Proof.
  intros Hagree.
  assert (Hvalidate : validate (VDict r1) = validate (VDict r2)).
  { unfold validate_input_data. rewrite !missing_from_record. simpl bind.
    assert (Habsent : absent_from r1 (MODEL_FEATURES Config) =
                      absent_from r2 (MODEL_FEATURES Config)).
    { unfold absent_from. apply filter_ext_in. intros f Hf.
      unfold Dict.mem. now rewrite (Hagree f Hf). }
    rewrite Habsent, (check_values_agree r1 r2 _ Hagree). reflexivity. }
  assert (Hbuild : build (VDict r1) = build (VDict r2)).
  { unfold build_dataframe_from_request.
    now rewrite (feature_items_agree r1 r2 _ [] Hagree). }
  repeat split; [exact Hvalidate | exact Hbuild |].
  intros Hr1 Hr2 json_dumps requests_post.
  unfold predict, predict_try, bind.
  rewrite Hvalidate, Hbuild.
  destruct r1; [contradiction|]. destruct r2; [contradiction|]. reflexivity.
Qed.

End Bodies.

(** ** Further properties: the frame *)

Lemma dict_set_keys_in {V} (k f : string) (v : V) (d : dict V) :
  In f (Dict.keys (Dict.set k v d)) <-> f = k \/ In f (Dict.keys d).
Proof.
  induction d as [|[k' v'] d IH]; simpl.
  - intuition congruence.
  - destruct (String.eqb_spec k k') as [->|Hne]; simpl.
    + intuition congruence.
    + rewrite IH. intuition congruence.
Qed.

Lemma dict_set_keys_nodup {V} (k : string) (v : V) (d : dict V) :
  NoDup (Dict.keys d) -> NoDup (Dict.keys (Dict.set k v d)).
Proof.
  induction d as [|[k' v'] d IH]; simpl; intros Hnd.
  - constructor; [intros [] | constructor].
  - inversion Hnd as [|? ? Hk Hd]; subst.
    destruct (String.eqb_spec k k') as [->|Hne]; simpl.
    + now constructor.
    + constructor; [|now apply IH].
      intros Hin. apply dict_set_keys_in in Hin.
      destruct Hin as [E|Hin]; [congruence | contradiction].
Qed.

Lemma dict_combine_keys_values {V} (d : dict V) :
  combine (Dict.keys d) (Dict.values d) = d.
Proof.
  induction d as [|[k v] d IH]; simpl; [reflexivity | now rewrite IH].
Qed.

(** The frame of one record: its keys as columns, one row of its values. *)
Lemma pd_DataFrame_record (d : dict float) :
  NoDup (Dict.keys d) ->
  pd_DataFrame [d] =
  {| columns := Dict.keys d; index := [0]; data := [Dict.values d] |}.
Proof.
  intros Hnd. rewrite <- (dict_combine_keys_values d) at 1.
  apply pd_DataFrame_single; [exact Hnd|].
  unfold Dict.keys, Dict.values. now rewrite !length_map.
Qed.

Section Frames.

Variable parse_float : string -> option float.
Variable repr : string -> string.
Variable Config : ConfigT.

Local Abbreviation items := (feature_items parse_float repr Config).
Local Abbreviation build :=
  (build_dataframe_from_request parse_float repr Config).

Lemma feature_items_keys (data : value) (features : list string)
  (acc filled : dict float) :
  items data features acc = Ok filled ->
  NoDup (Dict.keys acc) ->
  NoDup (Dict.keys filled)
  /\ forall f, In f (Dict.keys filled) <->
               In f (Dict.keys acc) \/ In f features.
Proof.
  revert acc. induction features as [|g rest IH]; intros acc; simpl.
  - intros H Hnd. injection H as <-. split; [exact Hnd | intuition].
  - match goal with
    | |- context [py_get data g ?d] =>
        destruct (py_get data g d) as [v|e]
    end; simpl; [|discriminate].
    destruct (py_float parse_float repr v) as [x|e]; simpl; [|discriminate].
    intros H Hnd.
    destruct (IH _ H (dict_set_keys_nodup g x acc Hnd)) as [Hnd' Hkeys].
    split; [exact Hnd'|].
    intros f. rewrite Hkeys, dict_set_keys_in. intuition.
Qed.

(** X16: whatever the schema, duplicates included, a frame the builder
    returns has one row, labelled 0; its columns are the schema features,
    each once; and the row has one cell per column. *)
Theorem build_frame_shape (body : value) (df : DataFrame) :
  build body = Ok df ->
  NoDup (columns df)
  /\ (forall f, In f (columns df) <-> In f (MODEL_FEATURES Config))
  /\ index df = [0]
  /\ exists row,
       data df = [row]
       /\ List.length row = List.length (columns df).
Proof.
  unfold build_dataframe_from_request.
  destruct (items body (MODEL_FEATURES Config) []) as [filled|e] eqn:Hitems;
    simpl; [|discriminate].
  intros H. injection H as <-.
  destruct (feature_items_keys body _ [] filled Hitems (NoDup_nil _))
    as [Hnd Hkeys].
  rewrite (pd_DataFrame_record filled Hnd). simpl.
  split; [exact Hnd|]. split.
  - intros f. rewrite Hkeys. simpl. intuition.
  - split; [reflexivity|]. exists (Dict.values filled).
    split; [reflexivity|].
    unfold Dict.keys, Dict.values. now rewrite !length_map.
Qed.

End Frames.

(** ** The further properties at concrete inputs *)

Lemma handler_success_iff_witness :
  predict Demo.parse_float Demo.repr Demo.json_dumps
    (Net.answering Net.scored) scenario (Ok sample_body) =
  success_answer (VFloat 0.87).
Proof.
  apply (handler_success_iff Demo.parse_float Demo.repr Demo.json_dumps
           (Net.answering Net.scored) scenario (Ok sample_body)
           (VFloat 0.87)).
  exists sample_body, "", sample_frame,
    (VDict [("predictions", VList [VFloat 0.87])]).
  repeat split; reflexivity.
Defined.

Lemma score_model_returns_iff_witness :
  score_model Demo.json_dumps (Net.answering Net.scored) scenario
    sample_frame =
  Ok (VDict [("predictions", VList [VFloat 0.87])]).
Proof.
  apply (score_model_returns_iff Demo.json_dumps (Net.answering Net.scored)
           scenario sample_frame).
  exists Net.scored. repeat split; reflexivity.
Defined.

Lemma timeout_answer_witness :
  predict Demo.parse_float Demo.repr Demo.json_dumps Net.stalled scenario
    (Ok sample_body) =
  error_answer
    "An error occurred: Request timed out after 30 seconds. The model endpoint may be slow or unavailable."
    400.
Proof.
  apply (timeout_answer Demo.parse_float Demo.repr Demo.json_dumps
           Net.stalled scenario sample_body "" sample_frame
           (Exn requests_ConnectTimeout "Connection timed out"));
    reflexivity.
Defined.

Lemma http_error_answer_witness :
  predict Demo.parse_float Demo.repr Demo.json_dumps
    (Net.answering Net.unavailable) scenario (Ok sample_body) =
  error_answer
    "An error occurred: Request failed with status 503. Response: Model unavailable"
    400.
Proof.
  apply (http_error_answer Demo.parse_float Demo.repr Demo.json_dumps
           (Net.answering Net.unavailable) scenario sample_body ""
           sample_frame Net.unavailable);
    try reflexivity.
  simpl. lia.
Defined.

Lemma malformed_response_answer_witness :
  predict Demo.parse_float Demo.repr Demo.json_dumps
    (Net.answering Net.garbled) scenario (Ok sample_body) =
  error_answer
    "Network error while calling model endpoint: Expecting value" 500.
Proof.
  apply (malformed_response_answer Demo.parse_float Demo.repr
           Demo.json_dumps (Net.answering Net.garbled) scenario sample_body
           "" sample_frame Net.garbled
           (Exn requests_RequestException "Expecting value"));
    reflexivity.
Defined.

Lemma server_error_origin_witness :
  exists e,
    isinstance e requests_RequestException = true
    /\ (Ok sample_body = Raise e
        \/ exists data df,
             Ok sample_body = Ok data
             /\ build_dataframe_from_request Demo.parse_float Demo.repr
                  scenario data = Ok df
             /\ ((Net.answering Net.garbled
                    (sent_request Demo.json_dumps scenario df) = Raise e
                  /\ isinstance e requests_Timeout = false
                  /\ isinstance e requests_ConnectionError = false)
                 \/ exists resp,
                      Net.answering Net.garbled
                        (sent_request Demo.json_dumps scenario df) = Ok resp
                      /\ status_code resp = 200
                      /\ resp_json resp = Raise e)).
Proof.
  apply (server_error_origin Demo.parse_float Demo.repr Demo.json_dumps
           scenario (Net.answering Net.garbled) (Ok sample_body)).
  reflexivity.
Defined.

(** A body without [income] gets the same answer on any network. *)
Lemma unaccepted_request_not_scored_witness :
  predict Demo.parse_float Demo.repr Demo.json_dumps Demo.unreachable
    scenario (Ok (VDict [("age", VStr "34")])) =
  predict Demo.parse_float Demo.repr Demo.json_dumps
    (Net.answering Net.scored) scenario (Ok (VDict [("age", VStr "34")])).
Proof.
  apply (unaccepted_request_not_scored Demo.parse_float Demo.repr
           Demo.json_dumps scenario Demo.unreachable
           (Net.answering Net.scored) (Ok (VDict [("age", VStr "34")]))).
  intros data message Hdata _. injection Hdata as <-.
  vm_compute. discriminate.
Defined.

Lemma validate_verdict_message_witness :
  (false = true /\ "Missing required features: income" = "")
  \/ (false = false /\
      ((exists missing,
          missing <> [] /\ incl missing (MODEL_FEATURES scenario)
          /\ "Missing required features: income" =
             "Missing required features: " ++ String.concat ", " missing)
       \/ exists f,
            In f (MODEL_FEATURES scenario)
            /\ "Missing required features: income" =
               "Invalid value for feature '" ++ f ++ "': must be a number")).
Proof.
  apply (validate_verdict_message Demo.parse_float Demo.repr scenario
           (VDict [("age", VStr "34")]) false
           "Missing required features: income").
  reflexivity.
Defined.

Lemma validate_accepts_iff_witness :
  validate_input_data Demo.parse_float Demo.repr scenario sample_body =
  Ok (true, "").
Proof.
  apply (validate_accepts_iff Demo.parse_float Demo.repr scenario
           sample_body "").
  split; [reflexivity|].
  intros f Hf. simpl in Hf. destruct Hf as [<-|[<-|[]]].
  - exists [("age", VStr "34"); ("income", VInt 3)], (VStr "34"), 34%float.
    repeat split; reflexivity.
  - exists [("age", VStr "34"); ("income", VInt 3)], (VInt 3), 3%float.
    repeat split; reflexivity.
Defined.

Lemma validate_array_or_string_body_witness :
  validate_input_data Demo.parse_float Demo.repr scenario
    (VList [VStr "income"; VStr "age"]) =
  Ok (false, "Invalid value for feature 'age': must be a number").
Proof.
  apply (validate_array_or_string_body Demo.parse_float Demo.repr scenario
           (VList [VStr "income"; VStr "age"]) "age" ["income"]).
  - reflexivity.
  - left. eexists. reflexivity.
  - intros g Hg. simpl in Hg. destruct Hg as [<-|[<-|[]]]; reflexivity.
Defined.

Lemma validate_scalar_body_witness :
  validate_input_data Demo.parse_float Demo.repr scenario (VInt 7) =
  Raise (Exn TypeError "argument of type 'int' is not iterable").
Proof.
  apply (validate_scalar_body Demo.parse_float Demo.repr scenario (VInt 7)
           "age" ["income"]); reflexivity.
Defined.

Lemma validate_names_first_invalid_witness :
  validate_input_data Demo.parse_float Demo.repr scenario
    (VDict [("age", VStr "34"); ("income", VNone)]) =
  Ok (false, "Invalid value for feature 'income': must be a number").
Proof.
  apply (validate_names_first_invalid Demo.parse_float Demo.repr scenario
           [("age", VStr "34"); ("income", VNone)] ["age"] [] "income"
           VNone
           (Exn TypeError
              "float() argument must be a string or a real number, not 'NoneType'")).
  - reflexivity.
  - intros g Hg. simpl in Hg. destruct Hg as [<-|[<-|[]]]; discriminate.
  - intros g Hg. simpl in Hg. destruct Hg as [<-|[]].
    exists (VStr "34"), 34%float. split; reflexivity.
  - reflexivity.
  - reflexivity.
  - discriminate.
Defined.

Lemma extra_keys_ignored_witness :
  validate_input_data Demo.parse_float Demo.repr scenario sample_body =
  validate_input_data Demo.parse_float Demo.repr scenario
    (VDict [("note", VStr "x"); ("income", VInt 3); ("age", VStr "34")]).
Proof.
  apply (extra_keys_ignored Demo.parse_float Demo.repr scenario
           [("age", VStr "34"); ("income", VInt 3)]
           [("note", VStr "x"); ("income", VInt 3); ("age", VStr "34")]).
  intros f Hf. simpl in Hf. destruct Hf as [<-|[<-|[]]]; reflexivity.
Defined.

(** A schema that names [age] twice still gives one [age] column. *)
Lemma build_frame_shape_witness :
  NoDup ["age"]
  /\ (forall f, In f ["age"] <-> In f ["age"; "age"])
  /\ [0] = [0]
  /\ exists row, [[34%float]] = [row] /\ List.length row = 1%nat.
Proof.
  apply (build_frame_shape Demo.parse_float Demo.repr
           (Demo.config ["age"; "age"] []) (VDict [("age", VStr "34")])
           {| columns := ["age"]; index := [0]; data := [[34%float]] |}).
  reflexivity.
Defined.

(** ** Further properties: what the endpoint is sent *)

Section Wire.

Variable parse_float : string -> option float.
Variable repr : string -> string.
Variable json_dumps : value -> string.
Variable Config : ConfigT.

Local Abbreviation float_ := (py_float parse_float repr).
Local Abbreviation validate := (validate_input_data parse_float repr Config).
Local Abbreviation build :=
  (build_dataframe_from_request parse_float repr Config).
Local Abbreviation sent := (sent_request json_dumps Config).



Lemma score_model_io_run (requests_post : request -> result response)
  (df : DataFrame) (posted : list request) :
  score_model_io json_dumps requests_post Config df posted =
  (score_model json_dumps requests_post Config df,
   (posted ++ [sent df])%list).
Proof.
  unfold score_model_io, score_model, post, sent_request.
  destruct (requests_post _) as [resp|e]; reflexivity.
Qed.

(** X19: no retry.  One run of [score_model] posts exactly one request,
    whether the call times out, fails, or is answered with any status.  One
    run of [predict] gives the answer of the handler and posts at most one
    request: none when the body does not parse, is falsy or is not accepted
    by validation, and exactly the request for the built frame when it is
    accepted. *)
Theorem at_most_one_post (requests_post : request -> result response)
  (get_json : result value) :
  (forall df posted,
     score_model_io json_dumps requests_post Config df posted =
     (score_model json_dumps requests_post Config df,
      (posted ++ [sent df])%list))
  /\ fst (predict_io parse_float repr json_dumps requests_post Config
            get_json) =
     predict parse_float repr json_dumps requests_post Config get_json
  /\ ((snd (predict_io parse_float repr json_dumps requests_post Config
              get_json) = []
       /\ forall data message,
            get_json = Ok data -> truthy data = true ->
            validate data <> Ok (true, message))
      \/ exists data message df,
           get_json = Ok data /\ truthy data = true
           /\ validate data = Ok (true, message)
           /\ build data = Ok df
           /\ snd (predict_io parse_float repr json_dumps requests_post
                     Config get_json) = [sent df]).
Proof.
  split; [intros df posted; apply score_model_io_run|].
  unfold predict_io, predict_try_io, predict, predict_try, io_bind, io_ret,
    bind.
  destruct get_json as [data|e].
  2:{ split; [now case_if|]. left. split; [reflexivity | discriminate]. }
  destruct (truthy data) eqn:Htruthy; cbv beta iota delta [negb].
  2:{ split; [reflexivity|]. left. split; [reflexivity|].
      intros d m Hd Ht. injection Hd as <-. congruence. }
  destruct (validate data) as [[[|] message]|e] eqn:Hvalid;
    cbv beta iota delta [negb].
  - destruct (validated_items parse_float repr Config data message Hvalid)
      as [filled Hfilled].
    assert (Hbuild : build data = Ok (pd_DataFrame [filled])).
    { unfold build_dataframe_from_request. now rewrite Hfilled. }
    rewrite Hbuild. cbv beta iota. rewrite score_model_io_run. simpl app.
    assert (Hright :
      exists d m df, Ok data = Ok d /\ truthy d = true
        /\ validate d = Ok (true, m) /\ build d = Ok df
        /\ [sent (pd_DataFrame [filled])] = [sent df])
      by (exists data, message, (pd_DataFrame [filled]); auto).
    destruct (score_model json_dumps requests_post Config
                (pd_DataFrame [filled])) as [result|e].
    + destruct (normalize repr result) as [p|e].
      * split; [reflexivity | right; exact Hright].
      * split; [now case_if | right].
        case_if; exact Hright.
    + split; [now case_if | right]. case_if; exact Hright.
  - split; [reflexivity|]. left. split; [reflexivity|].
    intros d m Hd _. injection Hd as <-. congruence.
  - split; [now case_if|]. left. split; [now case_if|].
    intros d m Hd _. injection Hd as <-. congruence.
Qed.

End Wire.

